(** * Terraform graph ingestion: the parser, the Neo4j connector and the
      command-line driver, embedded from the Python sources

    - [Py]        Python values as [json.load] produces them, exceptions,
                  and the state-and-exception monad the methods run in.
    - [Driver]    the neo4j driver interface, the observable events and
                  the world the program runs in.
    - [Parser]    [graph_parser.py], class [TerraformGraphParser].
    - [Connector] [neo4j_connector.py], class [Neo4jConnector].
    - [Neo4j]     a server that answers the five Cypher statements.
    - [Main]      [main.py].
    - [Doc]       views of documents, records and traces used to state
                  the properties.
    - [Samples]   the documents and worlds the examples run on.

    Dictionaries are finite maps ([gmap string pyval]): what the program
    computes from a dictionary does not depend on the order of its keys,
    except for the order of the keys inside the dictionaries it builds,
    which is not modelled.  Lists keep their order.

    Console output, subprocesses, connections and the statements sent to
    the database are recorded, in order, in the trace of the world. *)

From stdpp Require Import gmap strings list fin_maps pretty sorting.
From Stdlib Require Import ZArith.

Local Open Scope Z_scope.

(* ===================================================================== *)
(** ** Python values, exceptions, effects *)
(* ===================================================================== *)

Module Py.

(** A Python [float] (IEEE binary64): [(-1)^neg * m * 2^e], the two
    infinities, or not-a-number. *)
Inductive pyfloat :=
| Finite (neg : bool) (m : N) (e : Z)
| Infinity (neg : bool)
| NaN.

(** What [json.load] returns: [None], [bool], [int], [float], [str],
    [list] and [dict] with string keys. *)
#[warnings="-register-all"]
Inductive pyval :=
| PNone
| PBool (b : bool)
| PInt (z : Z)
| PFloat (f : pyfloat)
| PStr (s : string)
| PList (l : list pyval)
| PDict (d : gmap string pyval).

Abbreviation dict := (gmap string pyval).

(** [bool(v)], the test behind [if not v:]. *)
Definition truthy (v : pyval) : bool :=
  match v with
  | PNone => false
  | PBool b => b
  | PInt z => negb (z =? 0)
  | PFloat (Finite _ m _) => negb (m =? 0)%N
  | PFloat _ => true
  | PStr s => negb (String.eqb s "")
  | PList l => negb (Nat.eqb (length l) 0)
  | PDict d => negb (Nat.eqb (size d) 0)
  end.

(** [v is None]. *)
Definition is_none (v : pyval) : bool :=
  match v with PNone => true | _ => false end.

(** [type(v).__name__]. *)
Definition type_name (v : pyval) : string :=
  match v with
  | PNone => "NoneType"
  | PBool _ => "bool"
  | PInt _ => "int"
  | PFloat _ => "float"
  | PStr _ => "str"
  | PList _ => "list"
  | PDict _ => "dict"
  end.

Section Str.
(** [repr] of floats, lists and dictionaries is Python's own printing
    algorithm; it is taken as given. *)
Variable repr : pyval → string.

(** [str(v)]. *)
Definition str (v : pyval) : string :=
  match v with
  | PNone => "None"
  | PBool true => "True"
  | PBool false => "False"
  | PInt z => pretty z
  | PStr s => s
  | PFloat _ | PList _ | PDict _ => repr v
  end.
End Str.

(** The exceptions that the three modules raise or let through.
    [OSError] stands for the errors of the operating system other than
    [FileNotFoundError], such as [PermissionError]; [ValueError] for the
    value errors other than [UnicodeDecodeError]. *)
Inductive exn :=
| FileNotFoundError (msg : string)
| ValueError (msg : string)
| AttributeError (msg : string)
| TypeError (msg : string)
| KeyError (key : string)
| ConnectionError (msg : string)
| DriverError (msg : string)
| OSError (msg : string)
| CalledProcessError (msg : string)
| UnicodeDecodeError (msg : string)
| SystemExit (code : Z).

(** [str(e)]. *)
Definition exn_str (e : exn) : string :=
  match e with
  | FileNotFoundError m | ValueError m | AttributeError m | TypeError m
  | ConnectionError m | DriverError m | OSError m | CalledProcessError m
  | UnicodeDecodeError m => m
  | KeyError k => "'" +:+ k +:+ "'"
  | SystemExit c => pretty c
  end.

(** [isinstance(e, Exception)]: [SystemExit] derives from [BaseException]
    only, so [except Exception] lets it through. *)
Definition is_exception (e : exn) : bool :=
  match e with SystemExit _ => false | _ => true end.

(** A computation over a state [S] that returns an [A] or raises. The
    state is kept when an exception is raised, as Python keeps every
    assignment made before the [raise]. *)
Definition M (S A : Type) : Type := S → (exn + A) * S.

Definition ret {S A} (a : A) : M S A := λ s, (inr a, s).

Definition bind {S A B} (m : M S A) (k : A → M S B) : M S B :=
  λ s, match m s with
       | (inr a, s') => k a s'
       | (inl e, s') => (inl e, s')
       end.

Definition raise {S A} (e : exn) : M S A := λ s, (inl e, s).

Definition gets {S A} (f : S → A) : M S A := λ s, (inr (f s), s).

Definition modify {S} (f : S → S) : M S unit := λ s, (inr tt, f s).

(** [try: m  except Exception as e: h e]. *)
Definition try_except {S A} (m : M S A) (h : exn → M S A) : M S A :=
  λ s, match m s with
       | (inr a, s') => (inr a, s')
       | (inl e, s') => if is_exception e then h e s' else (inl e, s')
       end.

(** [for x in l: body x]. *)
Fixpoint for_each {S A} (l : list A) (body : A → M S unit) : M S unit :=
  match l with
  | [] => ret tt
  | x :: l' => bind (body x) (λ _, for_each l' body)
  end.

#[global] Instance M_ret S : MRet (M S) := λ A, @ret S A.
#[global] Instance M_bind S : MBind (M S) := λ A B k m, @bind S A B m k.

(** [v.get(key, dflt)]: only a [dict] has the method. *)
Definition get {S} (v : pyval) (key : string) (dflt : pyval) : M S pyval :=
  match v with
  | PDict d => ret (default dflt (d !! key))
  | _ => raise (AttributeError
                  ("'" +:+ type_name v +:+ "' object has no attribute 'get'"))
  end.

(** The elements [for x in v] runs through: the items of a list, the keys
    of a dictionary, the characters of a string; anything else is not
    iterable. The keys come in the order of the finite map, not in
    Python's insertion order: the loops below raise on the first key or
    character, whichever it is. *)
Definition iter {S} (v : pyval) : M S (list pyval) :=
  match v with
  | PList l => ret l
  | PDict d => ret ((λ kv, PStr kv.1) <$> map_to_list d)
  | PStr s => ret ((λ c, PStr (String c EmptyString)) <$> String.list_ascii_of_string s)
  | _ => raise (TypeError ("'" +:+ type_name v +:+ "' object is not iterable"))
  end.

(** [for key, value in src.items(): if key not in excluded: dst[key] = value]. *)
Definition copy_items (excluded : list string) (src dst : dict) : dict :=
  map_fold (λ key value acc,
              if bool_decide (key ∈ excluded) then acc else <[key := value]> acc)
           dst src.

End Py.

(* ===================================================================== *)
(** ** The neo4j driver as the connector sees it, and the outside world *)
(* ===================================================================== *)

Module Driver.
Import Py.

(** The five Cypher statements of [neo4j_connector.py], with their
    parameters. *)
Inductive query :=
| DeleteAll                           (* MATCH (n) DETACH DELETE n *)
| CreateConstraint                    (* CREATE CONSTRAINT ... IF NOT EXISTS *)
| MergeNodes (nodes : list dict)      (* UNWIND $nodes ... MERGE ... SET n += node *)
| MergeEdges (edges : list dict)      (* UNWIND $edges ... MATCH MATCH MERGE SET *)
| CountStats.                         (* MATCH ... OPTIONAL MATCH ... RETURN count *)

(** Where and as whom a driver connects. *)
Record endpoint := Endpoint {
  ep_uri : string;
  ep_user : string;
  ep_password : string
}.

(** The driver library and the database server behind it.
    [open_driver] answers [GraphDatabase.driver(uri, auth=...)] (which
    only inspects the URI), [verify_connectivity] answers
    [driver.verify_connectivity()], and [run] answers [session.run(query)]
    with the records of the result; each may raise instead. *)
Class Server (DB : Type) := {
  open_driver : endpoint → option exn;
  verify_connectivity : endpoint → DB → option exn;
  run : endpoint → query → DB → (exn + list dict) * DB
}.

(** What the program does that can be observed from outside, in order;
    a statement sent to the server is recorded with its answer. *)
Inductive event :=
| Print (line : string)
| Traceback (e : exn)
| Exec (argv : list string)
| Connect (ep : endpoint)
| Run (q : query) (answer : exn + list dict)
| Close.

(** A file holds a JSON document, given as the value [json.load] decodes
    it to, or text that [json.load] rejects with a [JSONDecodeError] of
    the given message, or it cannot be read: [open] or [json.load] raises
    another exception on it ([PermissionError] and [IsADirectoryError]
    from [open], [UnicodeDecodeError] on bytes that are not text,
    [RecursionError], the [ValueError] of an integer with too many
    digits). A path is either absent or such a file. *)
Inductive file :=
| BadJson (why : string)
| Unreadable (e : exn)
| Json (v : pyval).

Record world (DB : Type) := World {
  files : gmap string file;
  db : DB;
  trace : list event
}.
Arguments World {DB}.
Arguments files {DB}.
Arguments db {DB}.
Arguments trace {DB}.

Definition emit {DB} (ev : event) (w : world DB) : world DB :=
  World (files w) (db w) (trace w ++ [ev]).

Definition set_db {DB} (d : DB) (w : world DB) : world DB :=
  World (files w) d (trace w).

Definition set_file {DB} (path : string) (f : file) (w : world DB) : world DB :=
  World (<[path := f]> (files w)) (db w) (trace w).

(** Methods of an object of type [O] run over the object and the world. *)
Definition print {O DB} (line : string) : M (O * world DB) unit :=
  modify (λ s, (s.1, emit (Print line) s.2)).

Definition self {O DB A} (f : O → A) : M (O * world DB) A :=
  gets (λ s, f s.1).

Definition update {O DB} (f : O → O) : M (O * world DB) unit :=
  modify (λ s, (f s.1, s.2)).

(** The line break that a leading [\n] in a printed text stands for. *)
Definition nl : string := String (Ascii.ascii_of_nat 10) EmptyString.

End Driver.

(* ===================================================================== *)
(** ** graph_parser.py *)
(* ===================================================================== *)

Module Parser.
Import Py Driver.

Record TerraformGraphParser := Build {
  file_path : string;
  raw_data : pyval;
  nodes : list dict;
  edges : list dict
}.

Definition set_raw_data (v : pyval) (p : TerraformGraphParser) :=
  Build (file_path p) v (nodes p) (edges p).
Definition set_nodes (l : list dict) (p : TerraformGraphParser) :=
  Build (file_path p) (raw_data p) l (edges p).
Definition set_edges (l : list dict) (p : TerraformGraphParser) :=
  Build (file_path p) (raw_data p) (nodes p) l.

(** [TerraformGraphParser(file_path)]. *)
Definition init (path : string) : TerraformGraphParser :=
  Build path PNone [] [].

Definition not_loaded : exn :=
  ValueError "Graph data not loaded. Call load_graph() first.".

Definition node_excluded : list string :=
  ["_gvid"; "name"; "label"; "_draw_"; "_ldraw_"].

Definition edge_excluded : list string :=
  ["tail"; "head"; "label"; "_draw_"; "_ldraw_"; "_hdraw_"].

(** The result of [get_graph_metadata]. *)
Record metadata := Metadata {
  name : pyval;
  directed : pyval;
  strict : pyval;
  node_count : Z;
  edge_count : Z
}.

(** The result of [parse]. *)
Record graph_data := GraphData {
  gd_nodes : list dict;
  gd_edges : list dict;
  gd_metadata : metadata
}.

Section Methods.
Context {DB : Type}.
Variable repr : pyval → string.

Abbreviation PM := (M (TerraformGraphParser * world DB)).

Definition load_graph : PM unit :=
  path ← self file_path;
  fs ← gets (λ s, files s.2);
  match fs !! path with
  | None => raise (FileNotFoundError ("Graph file not found: " +:+ path))
  | Some (BadJson why) =>
      raise (ValueError ("Invalid JSON in graph file: " +:+ why))
  | Some (Unreadable e) =>
      match e with
      | FileNotFoundError _ =>
          raise (FileNotFoundError ("Graph file not found: " +:+ path))
      | _ => raise e
      end
  | Some (Json v) =>
      update (set_raw_data v);;
      print ("✓ Graph file loaded successfully from " +:+ path)
  end.

(** The body of the loop of [parse_nodes]. *)
Definition parse_node (obj : pyval) : PM unit :=
  gvid ← get obj "_gvid" PNone;
  if is_none gvid then ret tt
  else
    gvid ← get obj "_gvid" PNone;
    name ← get obj "name" (PStr "");
    name' ← get obj "name" (PStr "");
    label ← get obj "label" name';
    let node : dict :=
      <["label" := label]> (<["name" := name]> (<["id" := PStr (str repr gvid)]> ∅)) in
    match obj with
    | PDict items =>
        update (λ p, set_nodes (nodes p ++ [copy_items node_excluded items node]) p)
    | _ => raise (AttributeError
                    ("'" +:+ type_name obj +:+ "' object has no attribute 'items'"))
    end.

Definition parse_nodes : PM (list dict) :=
  raw ← self raw_data;
  if negb (truthy raw) then raise not_loaded
  else
    update (set_nodes []);;
    objects ← get raw "objects" (PList []);
    objs ← iter objects;
    for_each objs parse_node;;
    ns ← self nodes;
    print ("✓ Parsed " +:+ pretty (length ns) +:+ " nodes");;
    ret ns.

(** The body of the loop of [parse_edges]. *)
Definition parse_edge (edge_data : pyval) : PM unit :=
  tail ← get edge_data "tail" PNone;
  head ← get edge_data "head" PNone;
  label ← get edge_data "label" (PStr "DEPENDS_ON");
  let edge : dict :=
    <["label" := label]>
      (<["target" := PStr (str repr head)]> (<["source" := PStr (str repr tail)]> ∅)) in
  match edge_data with
  | PDict items =>
      update (λ p, set_edges (edges p ++ [copy_items edge_excluded items edge]) p)
  | _ => raise (AttributeError
                  ("'" +:+ type_name edge_data +:+ "' object has no attribute 'items'"))
  end.

Definition parse_edges : PM (list dict) :=
  raw ← self raw_data;
  if negb (truthy raw) then raise not_loaded
  else
    update (set_edges []);;
    es ← get raw "edges" (PList []);
    es ← iter es;
    for_each es parse_edge;;
    es ← self edges;
    print ("✓ Parsed " +:+ pretty (length es) +:+ " edges");;
    ret es.

Definition get_graph_metadata : PM metadata :=
  raw ← self raw_data;
  if negb (truthy raw) then raise not_loaded
  else
    name ← get raw "name" (PStr "terraform_graph");
    directed ← get raw "directed" (PBool true);
    strict ← get raw "strict" (PBool false);
    ns ← self nodes;
    es ← self edges;
    ret (Metadata name directed strict (Z.of_nat (length ns)) (Z.of_nat (length es))).

Definition parse : PM graph_data :=
  load_graph;;
  nodes ← parse_nodes;
  edges ← parse_edges;
  metadata ← get_graph_metadata;
  ret (GraphData nodes edges metadata).

End Methods.

End Parser.

(* ===================================================================== *)
(** ** neo4j_connector.py *)
(* ===================================================================== *)

Module Connector.
Import Py Driver.

Record Neo4jConnector := Build {
  uri : string;
  user : string;
  password : string;
  driver : option endpoint
}.

Definition set_driver (d : option endpoint) (c : Neo4jConnector) :=
  Build (uri c) (user c) (password c) d.

(** [Neo4jConnector(uri, user, password)]. *)
Definition init (uri user password : string) : Neo4jConnector :=
  Build uri user password None.

(** The result of [ingest_graph]. *)
Record ingest_counts := IngestCounts {
  ic_nodes : pyval;
  ic_edges : pyval
}.

(** The result of [get_stats]. *)
Record stats := Stats {
  st_nodes : pyval;
  st_relationships : pyval
}.

Section Methods.
Context {DB : Type} `{!Server DB}.
Variable repr : pyval → string.

Abbreviation CM := (M (Neo4jConnector * world DB)).

Definition of_option (o : option exn) : CM unit :=
  match o with
  | Some e => raise e
  | None => ret tt
  end.

Definition connect : CM unit :=
  try_except
    (ep ← gets (λ s, Endpoint (uri s.1) (user s.1) (password s.1));
     of_option (open_driver ep);;
     update (set_driver (Some ep));;
     modify (λ s, (s.1, emit (Connect ep) s.2));;
     d ← gets (λ s, db s.2);
     of_option (verify_connectivity ep d);;
     print ("✓ Connected to Neo4j at " +:+ ep_uri ep))
    (λ e, raise (ConnectionError ("Failed to connect to Neo4j: " +:+ exn_str e))).

Definition close : CM unit :=
  d ← self driver;
  match d with
  | Some _ =>
      modify (λ s, (s.1, emit Close s.2));;
      print "✓ Neo4j connection closed"
  | None => ret tt
  end.

(** [self.driver.session()]. *)
Definition session : CM endpoint :=
  d ← self driver;
  match d with
  | Some ep => ret ep
  | None => raise (AttributeError "'NoneType' object has no attribute 'session'")
  end.

(** [session.run(q)]. *)
Definition session_run (ep : endpoint) (q : query) : CM (list dict) :=
  λ s, let '(r, d) := run ep q (db s.2) in
       (r, (s.1, emit (Run q r) (set_db d s.2))).

(** [result.single()[key]]. *)
Definition single_field (records : list dict) (key : string) : CM pyval :=
  match records with
  | [] => raise (TypeError "'NoneType' object is not subscriptable")
  | record :: _ =>
      match record !! key with
      | Some v => ret v
      | None => raise (KeyError key)
      end
  end.

Definition clear_database : CM unit :=
  ep ← session;
  session_run ep DeleteAll;;
  print "✓ Database cleared".

Definition create_constraints : CM unit :=
  ep ← session;
  try_except
    (session_run ep CreateConstraint;;
     print "✓ Created constraint for TerraformResource nodes")
    (λ e, print ("Note: Constraint may already exist: " +:+ exn_str e)).

Definition ingest_nodes (nodes : list dict) : CM pyval :=
  match nodes with
  | [] => print "⚠ No nodes to ingest";; ret (PInt 0)
  | _ =>
      ep ← session;
      result ← session_run ep (MergeNodes nodes);
      count ← single_field result "count";
      print ("✓ Ingested " +:+ str repr count +:+ " nodes");;
      ret count
  end.

Definition ingest_edges (edges : list dict) : CM pyval :=
  match edges with
  | [] => print "⚠ No edges to ingest";; ret (PInt 0)
  | _ =>
      ep ← session;
      result ← session_run ep (MergeEdges edges);
      count ← single_field result "count";
      print ("✓ Ingested " +:+ str repr count +:+ " relationships");;
      ret count
  end.

Definition ingest_graph (graph_data : Parser.graph_data) (clear_existing : bool)
  : CM ingest_counts :=
  (if clear_existing then clear_database else ret tt);;
  create_constraints;;
  nodes_count ← ingest_nodes (Parser.gd_nodes graph_data);
  edges_count ← ingest_edges (Parser.gd_edges graph_data);
  let metadata := Parser.gd_metadata graph_data in
  print (nl +:+ "✓ Graph ingestion complete!");;
  print ("  - Graph name: " +:+ str repr (Parser.name metadata));;
  print ("  - Nodes created: " +:+ str repr nodes_count);;
  print ("  - Relationships created: " +:+ str repr edges_count);;
  ret (IngestCounts nodes_count edges_count).

Definition get_stats : CM stats :=
  ep ← session;
  result ← session_run ep CountStats;
  nodes ← single_field result "nodes";
  relationships ← single_field result "relationships";
  ret (Stats nodes relationships).

End Methods.

End Connector.

(* ===================================================================== *)
(** ** A Neo4j server, as far as the five statements reach *)
(* ===================================================================== *)

(** The database is not part of the program; the statements the connector
    sends are given here the meaning Cypher gives them, on a graph of
    labelled nodes and typed relationships with properties. A statement
    runs in its own transaction. Property values are the scalars and lists
    that JSON input can produce. *)

Module Neo4j.
Import Py Driver.

Record node := Node {
  labels : list string;
  props : dict
}.

(** A relationship joins two nodes, named by their position in the
    node list. *)
Record relationship := Rel {
  rel_start : nat;
  rel_end : nat;
  rel_type : string;
  rel_props : dict
}.

Record graph := Graph {
  address : string;
  account : string * string;
  gnodes : list node;
  grels : list relationship;
  constraints : list string
}.

Definition with_data (ns : list node) (rs : list relationship) (g : graph) :=
  Graph (address g) (account g) ns rs (constraints g).

Definition and_then {A B} (r : exn + A) (k : A → exn + B) : exn + B :=
  match r with
  | inl e => inl e
  | inr a => k a
  end.

(** *** Values *)

(** The driver encodes integers on 64 bits. *)
Fixpoint packable (v : pyval) : bool :=
  match v with
  | PInt z => (- 2 ^ 63 <=? z) && (z <? 2 ^ 63)
  | PList l => forallb packable l
  | PDict d => map_fold (λ _ x acc, packable x && acc) true d
  | _ => true
  end.

Inductive kind := KBool | KInt | KFloat | KStr.

#[global] Instance kind_eq_dec : EqDecision kind.
Proof. solve_decision. Defined.

Definition scalar_kind (v : pyval) : option kind :=
  match v with
  | PBool _ => Some KBool
  | PInt _ => Some KInt
  | PFloat _ => Some KFloat
  | PStr _ => Some KStr
  | _ => None
  end.

(** A property holds a scalar or a list of scalars of one kind. *)
Definition storable (v : pyval) : bool :=
  match v with
  | PList [] => true
  | PList (x :: l) =>
      match scalar_kind x with
      | Some k => forallb (λ y, bool_decide (scalar_kind y = Some k)) l
      | None => false
      end
  | _ => bool_decide (is_Some (scalar_kind v))
  end.

(** Numbers compare by value, whether integer or float. *)
Definition float_eqb (f1 f2 : pyfloat) : bool :=
  match f1, f2 with
  | Finite n1 m1 e1, Finite n2 m2 e2 =>
      let k := Z.min e1 e2 in
      let v1 := Z.of_N m1 * 2 ^ (e1 - k) in
      let v2 := Z.of_N m2 * 2 ^ (e2 - k) in
      (v1 =? v2) && ((v1 =? 0) || Bool.eqb n1 n2)
  | Infinity n1, Infinity n2 => Bool.eqb n1 n2
  | _, _ => false
  end.

Definition float_of_int (z : Z) : pyfloat :=
  Finite (z <? 0) (Z.to_N (Z.abs z)) 0.

Definition scalar_eqb (u v : pyval) : bool :=
  match u, v with
  | PBool a, PBool b => Bool.eqb a b
  | PInt a, PInt b => a =? b
  | PInt a, PFloat f | PFloat f, PInt a => float_eqb (float_of_int a) f
  | PFloat f, PFloat g => float_eqb f g
  | PStr a, PStr b => String.eqb a b
  | _, _ => false
  end.

(** Cypher's [=] on property values; [null] equals nothing. *)
Definition cypher_eqb (u v : pyval) : bool :=
  match u, v with
  | PList l1, PList l2 =>
      Nat.eqb (length l1) (length l2)
      && forallb (λ p, scalar_eqb p.1 p.2) (zip l1 l2)
  | _, _ => scalar_eqb u v
  end.

Definition type_error : exn :=
  DriverError "Property values can only be of primitive types or arrays thereof".

(** [SET x.key = v]: [null] removes the property. *)
Definition set_property (key : string) (v : pyval) (ps : dict) : exn + dict :=
  if is_none v then inr (delete key ps)
  else if storable v then inr (<[key := v]> ps)
  else inl type_error.

(** [SET x += row]. *)
Definition add_properties (row ps : dict) : exn + dict :=
  map_fold (λ key v acc, and_then acc (set_property key v)) (inr ps) row.

(** *** Patterns *)

(** The positions of the elements of [l] that pass [test]. *)
Definition positions {A} (test : A → bool) (l : list A) : list nat :=
  omap (λ p : nat * A, if test p.2 then Some p.1 else None) (imap pair l).

(** [(n:TerraformResource {id: v})]. *)
Definition is_resource (v : pyval) (n : node) : bool :=
  bool_decide ("TerraformResource" ∈ labels n)
  && match props n !! "id" with
     | Some u => cypher_eqb u v
     | None => false
     end.

(** [(s)-[r:DEPENDS_ON]->(t)] for given end points. *)
Definition depends_on (s t : nat) (r : relationship) : bool :=
  Nat.eqb (rel_start r) s && Nat.eqb (rel_end r) t
  && String.eqb (rel_type r) "DEPENDS_ON".

(** *** The statements *)

(** Runs [step] on the elements at the positions [hits] of [l], in turn. *)
Definition update_at {A} (step : A → exn + A) (hits : list nat) (l : list A)
  : exn + list A :=
  foldl (λ acc i,
           and_then acc (λ l,
             match l !! i with
             | Some x => and_then (step x) (λ y, inr (<[i := y]> l))
             | None => inr l
             end))
        (inr l) hits.

(** [MERGE]: the matches of the pattern if there are any, else one
    element created for it. *)
Definition merge {A} (test : A → bool) (fresh : A) (l : list A)
  : list A * list nat :=
  match positions test l with
  | [] => (l ++ [fresh], [length l])
  | found => (l, found)
  end.

(** One row of [UNWIND $nodes AS node MERGE (n:TerraformResource {id:
    node.id}) SET n += node]; the rows it yields are counted in [st.2]. *)
Definition merge_node (st : graph * Z) (row : dict) : exn + (graph * Z) :=
  let g := st.1 in
  match row !! "id" with
  | None | Some PNone =>
      inl (DriverError
             "Cannot merge the following node because of null property value for 'id'")
  | Some v =>
      if negb (storable v) then inl type_error
      else
        let '(ns, hits) :=
          merge (is_resource v) (Node ["TerraformResource"] {["id" := v]}) (gnodes g) in
        and_then
          (update_at (λ n, and_then (add_properties row (props n))
                                    (λ ps, inr (Node (labels n) ps)))
                     hits ns)
          (λ ns, inr (with_data ns (grels g) g, st.2 + Z.of_nat (length hits)))
  end.

(** [MERGE (source)-[r:DEPENDS_ON]->(target) SET r.label = label] for one
    pair of matched end points. *)
Definition merge_rel (label : pyval) (st : list relationship * Z) (ends : nat * nat)
  : exn + (list relationship * Z) :=
  let '(rs, hits) :=
    merge (depends_on ends.1 ends.2) (Rel ends.1 ends.2 "DEPENDS_ON" ∅) st.1 in
  and_then
    (update_at (λ r, and_then (set_property "label" label (rel_props r))
                              (λ ps, inr (Rel (rel_start r) (rel_end r) (rel_type r) ps)))
               hits rs)
    (λ rs, inr (rs, st.2 + Z.of_nat (length hits))).

(** One row of [UNWIND $edges AS edge MATCH (source ...) MATCH (target
    ...) MERGE ... SET r.label = edge.label]; a key the row lacks reads as
    [null]. *)
Definition merge_edge (st : graph * Z) (row : dict) : exn + (graph * Z) :=
  let g := st.1 in
  let ends (key : string) :=
    positions (is_resource (default PNone (row !! key))) (gnodes g) in
  let pairs := s ← ends "source"; (λ t, (s, t)) <$> ends "target" in
  and_then
    (foldl (λ acc p, and_then acc (λ st, merge_rel (default PNone (row !! "label")) st p))
           (inr (grels g, st.2)) pairs)
    (λ st', inr (with_data (gnodes g) st'.1 g, st'.2)).

(** [UNWIND rows AS row ... RETURN count(...) AS count]. *)
Definition unwind (step : graph * Z → dict → exn + (graph * Z)) (rows : list dict)
                  (g : graph) : exn + (graph * Z) :=
  if negb (forallb (λ row, packable (PDict row)) rows)
  then inl (DriverError "Integer out of range")
  else foldl (λ acc row, and_then acc (λ st, step st row)) (inr (g, 0)) rows.

(** [CREATE CONSTRAINT terraform_resource_id IF NOT EXISTS FOR
    (n:TerraformResource) REQUIRE n.id IS UNIQUE]: refused when two
    nodes already share an [id]. *)
Definition create_constraint (g : graph) : exn + graph :=
  if bool_decide ("terraform_resource_id" ∈ constraints g) then inr g
  else
    let clash (n : node) :=
      match props n !! "id" with
      | Some v => Nat.ltb 1 (length (positions (is_resource v) (gnodes g)))
      | None => false
      end in
    if existsb (λ n, bool_decide ("TerraformResource" ∈ labels n) && clash n) (gnodes g)
    then inl (DriverError "Unable to create constraint: existing data does not satisfy it")
    else inr (Graph (address g) (account g) (gnodes g) (grels g)
                    ("terraform_resource_id" :: constraints g)).

(** [MATCH (n:TerraformResource) OPTIONAL MATCH ()-[r:DEPENDS_ON]->()
    RETURN count(DISTINCT n) AS nodes, count(r) AS relationships]: the
    optional pattern shares no variable with [n], so every row of the
    first match is repeated for every relationship. *)
Definition count_stats (g : graph) : dict :=
  let ns := positions (λ n, bool_decide ("TerraformResource" ∈ labels n)) (gnodes g) in
  let rs := positions (λ r, String.eqb (rel_type r) "DEPENDS_ON") (grels g) in
  let rows : list (nat * option nat) :=
    n ← ns;
    match rs with
    | [] => [(n, None)]
    | _ => (λ r, (n, Some r)) <$> rs
    end in
  <["relationships" := PInt (Z.of_nat (length (omap snd rows)))]>
    {["nodes" := PInt (Z.of_nat (length (remove_dups (fst <$> rows))))]}.

Definition supported_schemes : list string :=
  ["bolt://"; "bolt+s://"; "bolt+ssc://"; "neo4j://"; "neo4j+s://"; "neo4j+ssc://"].

Definition reachable (ep : endpoint) (g : graph) : option exn :=
  if negb (String.eqb (ep_uri ep) (address g))
  then Some (DriverError "Couldn't connect: connection refused")
  else if negb (String.eqb (ep_user ep) (account g).1
                && String.eqb (ep_password ep) (account g).2)
  then Some (DriverError "The client is unauthorized due to authentication failure.")
  else None.

(** A statement takes effect as a whole or not at all. *)
#[global] Instance server : Server graph := {
  open_driver ep :=
    if existsb (λ scheme, String.prefix scheme (ep_uri ep)) supported_schemes
    then None
    else Some (DriverError "URI scheme is not supported");
  verify_connectivity := reachable;
  run ep q g :=
    match reachable ep g with
    | Some e => (inl e, g)
    | None =>
        match q with
        | DeleteAll => (inr [], with_data [] [] g)
        | CreateConstraint =>
            match create_constraint g with
            | inr g' => (inr [], g')
            | inl e => (inl e, g)
            end
        | MergeNodes rows =>
            match unwind merge_node rows g with
            | inr (g', count) => (inr [{["count" := PInt count]}], g')
            | inl e => (inl e, g)
            end
        | MergeEdges rows =>
            match unwind merge_edge rows g with
            | inr (g', count) => (inr [{["count" := PInt count]}], g')
            | inl e => (inl e, g)
            end
        | CountStats => (inr [count_stats g], g)
        end
    end
}.

End Neo4j.

(* ===================================================================== *)
(** ** main.py *)
(* ===================================================================== *)

Module Main.
Import Py Driver.

(** The command line after [argparse]. *)
Record args := Args {
  graph_file : string;
  skip_generate : bool;
  no_clear : bool
}.

(** How [terraform graph | dot -Tjson > output_file] ends: [Popen] or
    [open] raises, [dot] exits with an error after writing [out], or both
    processes end and [terraform] leaves a return code and its stderr. *)
Inductive pipeline :=
| PopenFails (e : exn)
| OpenFails (e : exn)
| DotFails (e : exn) (out : file)
| Finished (returncode : Z) (stderr : string) (out : file).

(** How [subprocess.run(argv, capture_output=True, check=True)] ends: the
    command runs and exits with 0; or it is not on the path or exits with
    an error, which raises [FileNotFoundError] or [CalledProcessError]; or
    starting it raises another error of the operating system, such as
    [PermissionError] for a file that may not be executed. *)
Inductive tool_check :=
| Runs
| NotFound
| StartFails (msg : string).

(** The process environment, the variables of the [.env] file, and the
    behaviour of the external commands. *)
Record config := Config {
  environ : gmap string string;
  dotenv : gmap string string;
  terraform_version : tool_check;
  dot_version : tool_check;
  terraform_graph : pipeline
}.

Section Program.
Context {DB : Type} `{!Server DB}.
Variable repr : pyval → string.

Abbreviation IO := (M (unit * world DB)).

Definition exec (argv : list string) : IO unit :=
  modify (λ s, (s.1, emit (Exec argv) s.2)).

Definition sys_exit {A} (code : Z) : IO A := raise (SystemExit code).

Definition generate_terraform_graph (c : config) (output_file : string) : IO bool :=
  print (nl +:+ "🔄 Generating Terraform graph...");;
  exec ["terraform"; "version"];;
  match terraform_version c with
  | NotFound =>
      print "❌ Error: terraform command not found. Please install Terraform.";;
      ret false
  | StartFails msg => raise (OSError msg)
  | Runs =>
    exec ["dot"; "-V"];;
    match dot_version c with
    | NotFound =>
        print "❌ Error: dot command not found. Please install Graphviz.";;
        ret false
    | StartFails msg => raise (OSError msg)
    | Runs =>
      try_except
        (exec ["terraform"; "graph"];;
         match terraform_graph c with
         | PopenFails e => raise e
         | OpenFails e => raise e
         | DotFails e out =>
             exec ["dot"; "-Tjson"];;
             modify (λ s, (s.1, set_file output_file out s.2));;
             raise e
         | Finished returncode stderr out =>
             exec ["dot"; "-Tjson"];;
             modify (λ s, (s.1, set_file output_file out s.2));;
             if negb (returncode =? 0) then
               print ("❌ Terraform graph generation failed: " +:+ stderr);;
               ret false
             else
               print ("✓ Graph generated successfully: " +:+ output_file);;
               ret true
         end)
        (λ e, print ("❌ Error generating graph: " +:+ exn_str e);; ret false)
    end
  end.

(** Runs a method of the object [o]. *)
Definition on {O A} (o : O) (m : M (O * world DB) A) : IO (A * O) :=
  λ s, let '(r, (o', w)) := m (o, s.2) in
       (match r with
        | inr a => inr (a, o')
        | inl e => inl e
        end, (tt, w)).

(** [with connector: body]: [__enter__] connects, [__exit__] closes on
    every way out of the body. *)
Definition with_connector {A} (c : Connector.Neo4jConnector)
           (body : M (Connector.Neo4jConnector * world DB) A) : IO A :=
  λ s, match Connector.connect (c, s.2) with
       | (inl e, (_, w)) => (inl e, (tt, w))
       | (inr _, inside) =>
           let '(r, after) := body inside in
           let '(r', (_, w)) := Connector.close after in
           (match r' with
            | inl e => inl e
            | inr _ => r
            end, (tt, w))
       end.

Definition main (a : args) (c : config) : IO unit :=
  let env := environ c ∪ dotenv c in
  let neo4j_uri := default "bolt://localhost:7687" (env !! "NEO4J_URI") in
  let neo4j_user := default "neo4j" (env !! "NEO4J_USER") in
  match env !! "NEO4J_PASSWORD" with
  | None | Some "" =>
      print "❌ Error: NEO4J_PASSWORD not set in environment variables";;
      print "Please create a .env file based on .env.example";;
      sys_exit 1
  | Some neo4j_password =>
      (if negb (skip_generate a) then
         generated ← generate_terraform_graph c (graph_file a);
         if negb generated then sys_exit 1 else ret tt
       else ret tt);;
      fs ← gets (λ s, files s.2);
      if negb (bool_decide (is_Some (fs !! graph_file a))) then
        print ("❌ Error: Graph file not found: " +:+ graph_file a);;
        sys_exit 1
      else
        try_except
          (print (nl +:+ "📊 Parsing graph from " +:+ graph_file a +:+ "...");;
           parsed ← on (Parser.init (graph_file a)) (Parser.parse repr);
           let graph_data := parsed.1 in
           print (nl +:+ "🔌 Connecting to Neo4j at " +:+ neo4j_uri +:+ "...");;
           with_connector (Connector.init neo4j_uri neo4j_user neo4j_password)
             (let clear_existing := negb (no_clear a) in
              Connector.ingest_graph repr graph_data clear_existing;;
              stats ← Connector.get_stats;
              print (nl +:+ "📈 Database statistics:");;
              print ("  - Total nodes: " +:+ str repr (Connector.st_nodes stats));;
              print ("  - Total relationships: "
                     +:+ str repr (Connector.st_relationships stats)));;
           print (nl +:+ "✅ Success! Terraform graph has been ingested into Neo4j");;
           print (nl +:+ "You can now query your graph at " +:+ neo4j_uri);;
           print "Example query: MATCH (n)-[r]->(m) RETURN n, r, m LIMIT 25")
          (λ e,
             print (nl +:+ "❌ Error: " +:+ exn_str e);;
             modify (λ s, (s.1, emit (Traceback e) s.2));;
             sys_exit 1)
  end.

(** The status the process ends with. *)
Definition exit_status (r : exn + unit) : Z :=
  match r with
  | inr _ => 0
  | inl (SystemExit code) => code
  | inl _ => 1
  end.

Definition run_main (a : args) (c : config) (w : world DB) : Z * world DB :=
  let '(r, (_, w')) := main a c (tt, w) in (exit_status r, w').

End Program.

End Main.

(* ===================================================================== *)
(** ** Views of documents, records and traces *)
(* ===================================================================== *)

Module Doc.
Import Py Driver Parser.

Definition as_dict (v : pyval) : option dict :=
  match v with PDict d => Some d | _ => None end.

Definition is_dict (v : pyval) : bool :=
  match v with PDict _ => true | _ => false end.

(** The list under [key] of a document, empty when [key] is absent. *)
Definition entries (key : string) (raw : pyval) : list pyval :=
  match raw with
  | PDict doc =>
      match default (PList []) (doc !! key) with
      | PList l => l
      | _ => []
      end
  | _ => []
  end.

Definition dict_entries (key : string) (raw : pyval) : list dict :=
  omap as_dict (entries key raw).

(** A document the parser accepts as loaded, whose collection under
    [key] is absent or a list of objects. *)
Definition graph_shaped (key : string) (raw : pyval) : bool :=
  truthy raw
  && match raw with
     | PDict doc =>
         match default (PList []) (doc !! key) with
         | PList l => forallb is_dict l
         | _ => false
         end
     | _ => false
     end.

(** The entry has the field [_gvid]. *)
Definition carries_id (d : dict) : bool :=
  bool_decide (is_Some (d !! "_gvid")).

(** The entry has the field [_gvid] and it is not [null]. *)
Definition has_id (d : dict) : bool :=
  negb (is_none (default PNone (d !! "_gvid"))).

Section Records.
Variable repr : pyval → string.

(** The dictionary [parse_nodes] builds for the entry [obj]. *)
Definition node_record (obj : dict) : dict :=
  let name := default (PStr "") (obj !! "name") in
  copy_items node_excluded obj
    (<["label" := default name (obj !! "label")]>
       (<["name" := name]>
          (<["id" := PStr (str repr (default PNone (obj !! "_gvid")))]> ∅))).

(** The dictionary [parse_edges] builds for the entry [edge_data]. *)
Definition edge_record (edge_data : dict) : dict :=
  copy_items edge_excluded edge_data
    (<["label" := default (PStr "DEPENDS_ON") (edge_data !! "label")]>
       (<["target" := PStr (str repr (default PNone (edge_data !! "head")))]>
          (<["source" := PStr (str repr (default PNone (edge_data !! "tail")))]> ∅))).
End Records.

(** The fixed fields of a record; what else it holds are its extra
    attributes. *)
Definition node_fields : list string := ["id"; "name"; "label"].
Definition edge_fields : list string := ["source"; "target"; "label"].

Definition extra_attributes (fields : list string) (record : dict) : dict :=
  filter (λ kv, kv.1 ∉ fields) record.

(** The exclusion set the specification gives for edges: tail, head,
    label, and the draw, head-draw and tail-draw attributes. *)
Definition specified_edge_excluded : list string :=
  ["tail"; "head"; "label"; "_draw_"; "_hdraw_"; "_tdraw_"].

(** The list a call returned, empty if it raised. *)
Definition returned {A S} (r : (exn + list A) * S) : list A :=
  match r.1 with
  | inr l => l
  | inl _ => []
  end.

(** The statements sent to the server in a stretch of the trace. *)
Definition queries (t : list event) : list query :=
  omap (λ ev, match ev with Run q _ => Some q | _ => None end) t.

(** The place of a statement in the order clear, constrain, nodes, edges. *)
Definition rank (q : query) : nat :=
  match q with
  | DeleteAll => 0
  | CreateConstraint => 1
  | MergeNodes _ => 2
  | MergeEdges _ => 3
  | CountStats => 4
  end.

(** The statement of an upsert: an empty list of records is not sent. *)
Definition upsert_plan (q : list dict → query) (rows : list dict) : list query :=
  match rows with
  | [] => []
  | _ => [q rows]
  end.

(** The statements of a complete [ingest_graph]. *)
Definition ingest_plan (g : graph_data) (clear_existing : bool) : list query :=
  (if clear_existing then [DeleteAll] else [])
  ++ [CreateConstraint]
  ++ upsert_plan MergeNodes (gd_nodes g)
  ++ upsert_plan MergeEdges (gd_edges g).

(** [m] adds to the trace statements that form a beginning of [plan];
    when it returns it has sent all of [plan], and [post] holds of
    what it returns and of the events it added. *)
Definition follows {DB O A} (m : M (O * world DB) A) (plan : list query)
                   (post : A → list event → Prop) : Prop :=
  ∀ s, ∃ t,
    trace (m s).2.2 = trace s.2 ++ t
    ∧ queries t `prefix_of` plan
    ∧ ∀ a, (m s).1 = inr a → queries t = plan ∧ post a t.

(** [count] is the count the server answered to [q] in [t]. *)
Definition answered (q : query) (count : pyval) (t : list event) : Prop :=
  ∃ record records,
    Run q (inr (record :: records)) ∈ t ∧ record !! "count" = Some count.

(** [count] is what an upsert of [rows] reports: zero for no rows, else
    the server's count. *)
Definition upserted (q : list dict → query) (rows : list dict) (count : pyval)
                    (t : list event) : Prop :=
  match rows with
  | [] => count = PInt 0
  | _ => answered (q rows) count t
  end.

(** An answer that lets the connector go on: records for the clearing;
    records or an [Exception] for the constraint; for an upsert, a first
    record with a [count]. *)
Definition accepted (q : query) (answer : exn + list dict) : bool :=
  match answer, q with
  | inl e, CreateConstraint => is_exception e
  | inl _, _ => false
  | inr (record :: _), (MergeNodes _ | MergeEdges _) =>
      match record !! "count" with
      | Some _ => true
      | None => false
      end
  | inr [], (MergeNodes _ | MergeEdges _) => false
  | inr _, _ => true
  end.

(** The server at [ep] gives such an answer to every statement of [plan],
    sent in turn from the database [d]. *)
Fixpoint serves {DB} `{!Server DB} (ep : endpoint) (plan : list query) (d : DB)
  : bool :=
  match plan with
  | [] => true
  | q :: plan' =>
      accepted q (run ep q d).1 && serves ep plan' (run ep q d).2
  end.

End Doc.

(* ===================================================================== *)
(** ** Sample documents and worlds *)
(* ===================================================================== *)

Module Samples.
Import Py Driver Parser.

(** A printing function for the examples, none of which prints a float,
    a list or a dictionary. *)
Definition plain_repr : pyval → string := λ _, "".

(** A world with no file and no database. *)
Definition quiet : world unit := World ∅ () [].

(** A parser holding [raw] as its loaded data. *)

Definition loaded (raw : pyval) : TerraformGraphParser :=
  set_raw_data raw (init "graph.json").

(** [{"objects": [{"_gvid": 7, "name": "a"}, {"_gvid": null}, {"name": "c"}],
      "edges": [{"tail": 7, "label": "uses"}, {"head": 7}]}] *)
Definition mixed_document : pyval :=
  PDict (<["objects" :=
             PList [PDict (<["_gvid" := PInt 7]> {["name" := PStr "a"]});
                    PDict {["_gvid" := PNone]};
                    PDict {["name" := PStr "c"]}]]>
           {["edges" :=
               PList [PDict (<["tail" := PInt 7]> {["label" := PStr "uses"]});
                      PDict {["head" := PInt 7]}]]}).

(** The first object and the second edge of [mixed_document]. *)
Definition named_entry : dict := <["_gvid" := PInt 7]> {["name" := PStr "a"]}.
Definition headed_entry : dict := {["head" := PInt 7]}.

(** [{"objects": [{"_gvid": null}]}] *)
Definition null_identifier_document : pyval :=
  PDict {["objects" := PList [PDict {["_gvid" := PNone]}]]}.

(** [{"edges": [{"tail": 0, "head": 1, "_tdraw_": "x"}]}] *)
Definition tail_draw_document : pyval :=
  PDict {["edges" :=
            PList [PDict (<["tail" := PInt 0]>
                            (<["head" := PInt 1]> {["_tdraw_" := PStr "x"]}))]]}.

(** [{"edges": [{"head": 1, "source": "vpc"}]}] *)
Definition source_field_document : pyval :=
  PDict {["edges" :=
            PList [PDict (<["head" := PInt 1]> {["source" := PStr "vpc"]})]]}.

(** The document of the end-to-end scenario:
    [{"objects": [{"_gvid": 0, "name": "aws_instance.web"},
                  {"_gvid": 1, "name": "aws_security_group.sg"}],
      "edges": [{"tail": 0, "head": 1}]}] *)
Definition scenario_document : pyval :=
  PDict (<["objects" :=
             PList [PDict (<["_gvid" := PInt 0]> {["name" := PStr "aws_instance.web"]});
                    PDict (<["_gvid" := PInt 1]>
                             {["name" := PStr "aws_security_group.sg"]})]]>
           {["edges" := PList [PDict (<["tail" := PInt 0]> {["head" := PInt 1]})]]}).

(** A server with an empty database, and a world in which the scenario
    document is the graph file. *)
Definition empty_server : Neo4j.graph :=
  Neo4j.Graph "bolt://localhost:7687" ("neo4j", "secret") [] [] [].

Definition scenario_world : world Neo4j.graph :=
  World {["graph.json" := Json scenario_document]} empty_server [].

Definition scenario_connector : Connector.Neo4jConnector :=
  Connector.init "bolt://localhost:7687" "neo4j" "secret".

(** A run with no password in the environment nor in [.env]. *)
Definition no_password : Main.config :=
  Main.Config {["NEO4J_USER" := "neo4j"]} ∅ Main.Runs Main.Runs
              (Main.Finished 0 "" (Json scenario_document)).

End Samples.

(* ===================================================================== *)
(** ** Further views *)
(* ===================================================================== *)

Module MoreViews.
Import Py Driver Parser.

(** The values [for x in v] refuses: neither a list, a dictionary nor a
    string. *)
Definition not_iterable (v : pyval) : bool :=
  match v with
  | PNone | PBool _ | PInt _ | PFloat _ => true
  | _ => false
  end.

(** [isinstance(e, FileNotFoundError)]. *)
Definition not_found (e : exn) : bool :=
  match e with
  | FileNotFoundError _ => true
  | _ => false
  end.

(** The error of using a connector that has no driver. *)
Definition no_session : exn :=
  AttributeError "'NoneType' object has no attribute 'session'".

(** The server answers [q] with records or with an [Exception], not with
    a [SystemExit]. *)
Definition answers_or_fails {DB} `{!Server DB} (ep : endpoint) (q : query) (d : DB)
  : Prop :=
  ∀ e, (run ep q d).1 = inl e → is_exception e = true.

(** The resources of a database and its dependencies. *)
Definition resources (g : Neo4j.graph) : list Neo4j.node :=
  filter (λ n, "TerraformResource" ∈ Neo4j.labels n) (Neo4j.gnodes g).

Definition dependencies (g : Neo4j.graph) : list Neo4j.relationship :=
  filter (λ r, Neo4j.rel_type r = "DEPENDS_ON") (Neo4j.grels g).

(** No resource of [g] has the value under [key] of [row] as its [id]. *)
Definition unknown_end (g : Neo4j.graph) (key : string) (row : dict) : bool :=
  forallb (λ n, negb (Neo4j.is_resource (default PNone (row !! key)) n))
          (Neo4j.gnodes g).

(** An edge record with an end that [g] does not hold. *)
Definition dangling (g : Neo4j.graph) (row : dict) : bool :=
  unknown_end g "source" row || unknown_end g "target" row.

(** The failure of the pipeline, if it fails by raising, is an
    [Exception]: what [subprocess] and [open] raise is. *)
Definition pipeline_exception (p : Main.pipeline) : bool :=
  match p with
  | Main.PopenFails e | Main.OpenFails e | Main.DotFails e _ => is_exception e
  | Main.Finished _ _ _ => true
  end.

(** Both commands are there and run. *)
Definition checks_pass (c : Main.config) : bool :=
  match Main.terraform_version c, Main.dot_version c with
  | Main.Runs, Main.Runs => true
  | _, _ => false
  end.

(** The error of a check that neither passes nor reports the command as
    missing: the first such check, if it is reached. *)
Definition escaping_check (c : Main.config) : option exn :=
  match Main.terraform_version c, Main.dot_version c with
  | Main.StartFails msg, _ => Some (OSError msg)
  | Main.Runs, Main.StartFails msg => Some (OSError msg)
  | _, _ => None
  end.

(** What [dot] has written when both checks pass and [terraform graph]
    ends with return code 0. *)
Definition generated_file (c : Main.config) : option file :=
  if checks_pass c then
    match Main.terraform_graph c with
    | Main.Finished 0 _ out => Some out
    | _ => None
    end
  else None.

(** What the run of [dot] leaves in the output file, when it is reached. *)
Definition written_file (c : Main.config) : option file :=
  if checks_pass c then
    match Main.terraform_graph c with
    | Main.DotFails _ out | Main.Finished _ _ out => Some out
    | _ => None
    end
  else None.

(** The password [main] reads: the environment first, then [.env]. *)
Definition configured_password (c : Main.config) : option string :=
  (Main.environ c ∪ Main.dotenv c) !! "NEO4J_PASSWORD".

(** The address and the user [main] reads, with their defaults. *)
Definition configured_uri (c : Main.config) : string :=
  default "bolt://localhost:7687" ((Main.environ c ∪ Main.dotenv c) !! "NEO4J_URI").

Definition configured_user (c : Main.config) : string :=
  default "neo4j" ((Main.environ c ∪ Main.dotenv c) !! "NEO4J_USER").

(** The block that [main] runs inside [with ... as connector]. *)
Definition ingestion {DB} `{!Server DB} (repr : pyval → string)
    (graph_data : Parser.graph_data) (a : Main.args)
  : M (Connector.Neo4jConnector * world DB) unit :=
  let clear_existing := negb (Main.no_clear a) in
  Connector.ingest_graph repr graph_data clear_existing;;
  stats ← Connector.get_stats;
  print (nl +:+ "📈 Database statistics:");;
  print ("  - Total nodes: " +:+ str repr (Connector.st_nodes stats));;
  print ("  - Total relationships: "
         +:+ str repr (Connector.st_relationships stats)).

(** A method that leaves the fields of the connector as they are. *)
Definition keeps_connector {DB A} (m : M (Connector.Neo4jConnector * world DB) A)
  : Prop :=
  ∀ s, (m s).2.1 = s.1.

End MoreViews.

(* ===================================================================== *)
(** ** Further sample data *)
(* ===================================================================== *)

Module MoreSamples.
Import Py Driver Parser Doc Samples MoreViews.

(** [{"objects": [{"_gvid": 7, "name": "a"}, 5, {"_gvid": 8}]}] *)
Definition stray_document : dict :=
  {["objects" := PList ([PDict (<["_gvid" := PInt 7]> {["name" := PStr "a"]})]
                        ++ PInt 5 :: [PDict {["_gvid" := PInt 8]}])]}.

(** [{"objects": [{"_gvid": 3, "id": "custom", "shape": "box", "_draw_": []},
                  {"_gvid": 4, "shape": "oval"}],
      "edges": [{"tail": 3, "head": 4, "weight": 2, "_hdraw_": []}]}] *)
Definition custom_entry : dict :=
  <["_gvid" := PInt 3]>
    (<["id" := PStr "custom"]> (<["shape" := PStr "box"]> {["_draw_" := PList []]})).

Definition oval_entry : dict := <["_gvid" := PInt 4]> {["shape" := PStr "oval"]}.

Definition weighted_entry : dict :=
  <["tail" := PInt 3]>
    (<["head" := PInt 4]> (<["weight" := PInt 2]> {["_hdraw_" := PList []]})).

Definition attributes_document : pyval :=
  PDict (<["objects" := PList [PDict custom_entry; PDict oval_entry]]>
           {["edges" := PList [PDict weighted_entry]]}).

(** The entries of [scenario_document]. *)
Definition web_entry : dict := <["_gvid" := PInt 0]> {["name" := PStr "aws_instance.web"]}.
Definition sg_entry : dict :=
  <["_gvid" := PInt 1]> {["name" := PStr "aws_security_group.sg"]}.
Definition web_to_sg_entry : dict := <["tail" := PInt 0]> {["head" := PInt 1]}.

Definition scenario_nodes : list dict :=
  [node_record plain_repr web_entry; node_record plain_repr sg_entry].

Definition scenario_edges : list dict := [edge_record plain_repr web_to_sg_entry].

(** A connector that has connected to [empty_server], and a graph with
    neither nodes nor edges. *)
Definition connected : Connector.Neo4jConnector :=
  Connector.set_driver (Some (Endpoint "bolt://localhost:7687" "neo4j" "secret"))
                       scenario_connector.

(** The graph that [parse] builds from the scenario document. *)
Definition scenario_graph : graph_data :=
  GraphData scenario_nodes scenario_edges
            (Metadata (PStr "terraform_graph") (PBool true) (PBool false) 2 1).

Definition empty_graph : graph_data :=
  GraphData [] [] (Metadata (PStr "terraform_graph") (PBool true) (PBool false) 0 0).

(** A server that already holds two nodes with the same [id], so that the
    uniqueness constraint cannot be created. *)
Definition clashing_server : Neo4j.graph :=
  Neo4j.Graph "bolt://localhost:7687" ("neo4j", "secret")
              [Neo4j.Node ["TerraformResource"] {["id" := PStr "0"]};
               Neo4j.Node ["TerraformResource"] {["id" := PStr "0"]}]
              [] [].

Definition clashing_world : world Neo4j.graph := World ∅ clashing_server [].

(** A server that holds three resources and two dependencies. *)
Definition linked_server : Neo4j.graph :=
  Neo4j.Graph "bolt://localhost:7687" ("neo4j", "secret")
              [Neo4j.Node ["TerraformResource"] {["id" := PStr "0"]};
               Neo4j.Node ["TerraformResource"] {["id" := PStr "1"]};
               Neo4j.Node ["TerraformResource"] {["id" := PStr "2"]}]
              [Neo4j.Rel 0 1 "DEPENDS_ON" ∅; Neo4j.Rel 1 2 "DEPENDS_ON" ∅]
              [].

Definition linked_world : world Neo4j.graph := World ∅ linked_server [].

(** An edge record between two resources that [linked_server] lacks. *)
Definition dangling_edge : dict :=
  <["source" := PStr "8"]> (<["target" := PStr "9"]> {["label" := PStr "DEPENDS_ON"]}).

(** [{"objects": null}] *)
Definition null_objects_document : dict := {["objects" := PNone]}.

(** A world with no database in which [mixed_document] is the graph file
    and [broken.json] is not JSON. *)
Definition mixed_world : world unit :=
  World (<["graph.json" := Json mixed_document]>
           {["broken.json" := BadJson "Expecting value: line 1 column 1 (char 0)"]})
        () [].

(** The records [parse_nodes] and [parse_edges] build from [mixed_document]. *)
Definition mixed_nodes : list dict := [node_record plain_repr named_entry].

(** The parser after [parse_nodes], and then [parse_edges], on
    [mixed_document] in the world [quiet]. *)
Definition mixed_parsed : TerraformGraphParser * world unit :=
  (set_nodes mixed_nodes (loaded mixed_document),
   emit (Print "✓ Parsed 1 nodes") quiet).

Definition labelled_entry : dict := <["tail" := PInt 7]> {["label" := PStr "uses"]}.

Definition mixed_edges : list dict :=
  [edge_record plain_repr labelled_entry; edge_record plain_repr headed_entry].

Definition mixed_parsed_twice : TerraformGraphParser * world unit :=
  (set_edges mixed_edges mixed_parsed.1,
   emit (Print "✓ Parsed 2 edges") mixed_parsed.2).

(** Runs of [main]: a password in the environment; an empty password in
    the environment and a real one in [.env]; no [terraform] command. *)
Definition with_password : Main.config :=
  Main.Config {["NEO4J_PASSWORD" := "secret"]} ∅ Main.Runs Main.Runs
              (Main.Finished 0 "" (Json scenario_document)).

Definition empty_password : Main.config :=
  Main.Config {["NEO4J_PASSWORD" := ""]} {["NEO4J_PASSWORD" := "secret"]} Main.Runs Main.Runs
              (Main.Finished 0 "" (Json scenario_document)).

Definition no_terraform : Main.config :=
  Main.Config {["NEO4J_PASSWORD" := "secret"]} ∅ Main.NotFound Main.Runs
              (Main.PopenFails (FileNotFoundError "No such file or directory: 'terraform'")).


(** A world whose graph file is not JSON, and one with no file at all. *)
Definition broken_world : world Neo4j.graph :=
  World {["graph.json" := BadJson "Expecting value: line 1 column 1 (char 0)"]}
        empty_server [].

Definition bare_world : world Neo4j.graph := World ∅ empty_server [].

(** A world whose graph file holds bytes that are not text. *)
Definition binary_world : world unit :=
  World {["graph.json" :=
            Unreadable (UnicodeDecodeError
              "'utf-8' codec can't decode byte 0xff in position 0: invalid start byte")]}
        () [].

(** A world whose server knows another password. *)
Definition locked_world : world Neo4j.graph :=
  World {["graph.json" := Json scenario_document]}
        (Neo4j.Graph "bolt://localhost:7687" ("neo4j", "other") [] [] [])
        [].

(** The run of [main] on the scenario with [--skip-generate]: the state
    after the parse, after the connection, and after the ingestion. *)
Definition scenario_args : Main.args := Main.Args "graph.json" true false.

Definition scenario_parsed : TerraformGraphParser * world Neo4j.graph :=
  (parse plain_repr
     (Parser.init "graph.json",
      emit (Print (nl +:+ "📊 Parsing graph from " +:+ "graph.json" +:+ "..."))
           scenario_world)).2.

Definition scenario_entered : Connector.Neo4jConnector * world Neo4j.graph :=
  (Connector.connect
     (Connector.init (configured_uri with_password) (configured_user with_password)
                     "secret",
      emit (Print (nl +:+ "🔌 Connecting to Neo4j at "
                   +:+ configured_uri with_password +:+ "..."))
           scenario_parsed.2)).2.

Definition scenario_ingested : Connector.Neo4jConnector * world Neo4j.graph :=
  (ingestion plain_repr scenario_graph scenario_args scenario_entered).2.

End MoreSamples.

(* ===================================================================== *)
(** ** Properties of the parser *)
(* ===================================================================== *)

Module ParserFacts.
Import Py Driver Parser Doc Samples.

(** The copy loop writes a key of the source unless it is excluded, and
    leaves every other key of the target alone. *)
Lemma copy_items_lookup (excluded : list string) (src dst : dict) (k : string) :
  copy_items excluded src dst !! k =
    match src !! k with
    | Some v => if bool_decide (k ∈ excluded) then dst !! k else Some v
    | None => dst !! k
    end.
Proof.
  unfold copy_items.
  apply (map_fold_weak_ind
           (λ (r : dict) (m : dict),
              r !! k = match m !! k with
                       | Some v => if bool_decide (k ∈ excluded) then dst !! k else Some v
                       | None => dst !! k
                       end)).
  - by rewrite lookup_empty.
  - intros i x m r Hi IH.
    destruct (decide (i = k)) as [->|Hne].
    + rewrite (lookup_insert_eq m). rewrite Hi in IH.
      case_bool_decide; [exact IH|]. by rewrite lookup_insert_eq.
    + rewrite (lookup_insert_ne m) by done.
      destruct (bool_decide (i ∈ excluded)); [exact IH|].
      by rewrite lookup_insert_ne.
Qed.

Lemma copy_items_excluded (excluded : list string) (src dst : dict) (k : string) :
  k ∈ excluded → copy_items excluded src dst !! k = dst !! k.
Proof.
  intros Hk. rewrite copy_items_lookup.
  destruct (src !! k); [|done]. by rewrite bool_decide_eq_true_2.
Qed.

Lemma copy_items_absent (excluded : list string) (src dst : dict) (k : string) :
  src !! k = None → copy_items excluded src dst !! k = dst !! k.
Proof. intros Hk. by rewrite copy_items_lookup, Hk. Qed.

Lemma set_nodes_id p : set_nodes (nodes p ++ []) p = p.
Proof. destruct p. unfold set_nodes. simpl. by rewrite app_nil_r. Qed.

Lemma set_edges_id p : set_edges (edges p ++ []) p = p.
Proof. destruct p. unfold set_edges. simpl. by rewrite app_nil_r. Qed.

Ltac run_monad :=
  unfold mbind, M_bind, mret, M_ret, bind, ret, raise, self, gets, update,
    modify, print, get, iter; simpl.

Section Loops.
Context {DB : Type}.
Variable repr : pyval → string.
Implicit Types (p : TerraformGraphParser) (w : world DB) (l : list pyval).

Lemma parse_node_dict (d : dict) p w :
  parse_node repr (PDict d) (p, w) =
    (inr tt, if has_id d
             then (set_nodes (nodes p ++ [node_record repr d]) p, w)
             else (p, w)).
Proof.
  unfold parse_node, has_id. run_monad.
  destruct (is_none _); reflexivity.
Qed.

Lemma parse_node_other (v : pyval) p w :
  is_dict v = false → ∃ msg, parse_node repr v (p, w) = (inl (AttributeError msg), (p, w)).
Proof. destruct v; intros ?; try discriminate; eexists; reflexivity. Qed.

Lemma parse_edge_dict (d : dict) p w :
  parse_edge repr (PDict d) (p, w) =
    (inr tt, (set_edges (edges p ++ [edge_record repr d]) p, w)).
Proof. reflexivity. Qed.

Lemma parse_edge_other (v : pyval) p w :
  is_dict v = false → ∃ msg, parse_edge repr v (p, w) = (inl (AttributeError msg), (p, w)).
Proof. destruct v; intros ?; try discriminate; eexists; reflexivity. Qed.

(** The node loop over a list of objects appends one record per entry
    with an identifier, in order. *)
Lemma node_loop l : ∀ p w,
  forallb is_dict l = true →
  for_each l (parse_node repr) (p, w) =
    (inr tt, (set_nodes (nodes p ++ (node_record repr <$> filter has_id (omap as_dict l))) p, w)).
Proof.
  induction l as [|v l IH]; intros p w Hl.
  - simpl. by rewrite set_nodes_id.
  - simpl in Hl. apply andb_true_iff in Hl as [Hv Hl].
    destruct v; try discriminate. simpl.
    unfold bind. rewrite parse_node_dict.
    rewrite filter_cons. destruct (has_id d) eqn:Hd.
    + rewrite decide_True by done.
      rewrite IH by done. simpl. by rewrite <- app_assoc.
    + rewrite decide_False by (by intros ?). by rewrite IH.
Qed.

Lemma node_loop_fails l : ∀ p w,
  forallb is_dict l = false →
  ∃ e s, for_each l (parse_node repr) (p, w) = (inl e, s).
Proof.
  induction l as [|v l IH]; intros p w Hl; [discriminate|].
  simpl in Hl. destruct (is_dict v) eqn:Hv.
  - destruct v; try discriminate. simpl. unfold bind.
    rewrite parse_node_dict. destruct (has_id d); by apply IH.
  - destruct (parse_node_other v p w Hv) as [msg Hmsg].
    simpl. unfold bind. rewrite Hmsg. eauto.
Qed.

Lemma edge_loop l : ∀ p w,
  forallb is_dict l = true →
  for_each l (parse_edge repr) (p, w) =
    (inr tt, (set_edges (edges p ++ (edge_record repr <$> omap as_dict l)) p, w)).
Proof.
  induction l as [|v l IH]; intros p w Hl.
  - simpl. by rewrite set_edges_id.
  - simpl in Hl. apply andb_true_iff in Hl as [Hv Hl].
    destruct v; try discriminate. simpl.
    unfold bind. rewrite parse_edge_dict.
    rewrite IH by done. simpl. by rewrite <- app_assoc.
Qed.

Lemma edge_loop_fails l : ∀ p w,
  forallb is_dict l = false →
  ∃ e s, for_each l (parse_edge repr) (p, w) = (inl e, s).
Proof.
  induction l as [|v l IH]; intros p w Hl; [discriminate|].
  simpl in Hl. destruct (is_dict v) eqn:Hv.
  - destruct v; try discriminate. simpl. unfold bind.
    rewrite parse_edge_dict. by apply IH.
  - destruct (parse_edge_other v p w Hv) as [msg Hmsg].
    simpl. unfold bind. rewrite Hmsg. eauto.
Qed.

Lemma not_dict_after_PStr {A} (f : A → string) (xs : list A) :
  xs ≠ [] → forallb is_dict ((λ x, PStr (f x)) <$> xs) = false.
Proof. by destruct xs. Qed.

(** On a document of the expected shape [parse_nodes] returns, and
    stores, the records of the entries with an identifier. *)
Lemma parse_nodes_shaped p w :
  graph_shaped "objects" (raw_data p) = true →
  let ns := node_record repr <$> filter has_id (dict_entries "objects" (raw_data p)) in
  parse_nodes repr (p, w) =
    (inr ns, (set_nodes ns p,
              emit (Print ("✓ Parsed " +:+ pretty (length ns) +:+ " nodes")) w)).
Proof.
  unfold graph_shaped, dict_entries, entries. intros H. cbv zeta.
  apply andb_true_iff in H as [Ht H].
  destruct (raw_data p) as [| | | | |?|doc] eqn:Hraw; try discriminate.
  destruct (default (PList []) (doc !! "objects")) as [| | | | |l|?] eqn:Hobj;
    try discriminate.
  unfold parse_nodes. run_monad. rewrite Hraw, Ht. simpl.
  rewrite Hobj. run_monad. rewrite (node_loop l (set_nodes [] p) w H). simpl.
  destruct p; reflexivity.
Qed.

(** Whenever [parse_nodes] returns, the document had that shape up to
    an empty collection, and the result is as above. *)
Lemma parse_nodes_returned p w ns s :
  parse_nodes repr (p, w) = (inr ns, s) →
  truthy (raw_data p) = true
  ∧ forallb is_dict (entries "objects" (raw_data p)) = true
  ∧ ns = node_record repr <$> filter has_id (dict_entries "objects" (raw_data p))
  ∧ nodes s.1 = ns.
Proof.
  unfold parse_nodes, dict_entries, entries. run_monad.
  destruct (truthy (raw_data p)) eqn:Ht; simpl; [|discriminate].
  destruct (raw_data p) as [| | | | |?|doc] eqn:Hraw; try discriminate.
  destruct (default (PList []) (doc !! "objects")) as [| | | | s0 |l|d] eqn:Hobj;
    run_monad; try discriminate.
  - destruct (String.list_ascii_of_string s0) as [|c cs] eqn:Hs.
    + simpl. intros [= <- <-]. done.
    + destruct (node_loop_fails
                  ((λ c, PStr (String c EmptyString)) <$> (c :: cs))
                  (set_nodes [] p) w) as (e & s' & He); [done|].
      rewrite He. discriminate.
  - destruct (forallb is_dict l) eqn:Hl.
    + rewrite (node_loop l (set_nodes [] p) w Hl). simpl.
      intros [= <- <-]. done.
    + destruct (node_loop_fails l (set_nodes [] p) w Hl) as (e & s' & He).
      rewrite He. discriminate.
  - destruct (map_to_list d) as [|kv kvs] eqn:Hd.
    + simpl. intros [= <- <-]. done.
    + destruct (node_loop_fails
                  ((λ kv : string * pyval, PStr kv.1) <$> (kv :: kvs))
                  (set_nodes [] p) w) as (e & s' & He); [done|].
      rewrite He. discriminate.
Qed.

Lemma parse_edges_shaped p w :
  graph_shaped "edges" (raw_data p) = true →
  let es := edge_record repr <$> dict_entries "edges" (raw_data p) in
  parse_edges repr (p, w) =
    (inr es, (set_edges es p,
              emit (Print ("✓ Parsed " +:+ pretty (length es) +:+ " edges")) w)).
Proof.
  unfold graph_shaped, dict_entries, entries. intros H. cbv zeta.
  apply andb_true_iff in H as [Ht H].
  destruct (raw_data p) as [| | | | |?|doc] eqn:Hraw; try discriminate.
  destruct (default (PList []) (doc !! "edges")) as [| | | | |l|?] eqn:Hobj;
    try discriminate.
  unfold parse_edges. run_monad. rewrite Hraw, Ht. simpl.
  rewrite Hobj. run_monad. rewrite (edge_loop l (set_edges [] p) w H). simpl.
  destruct p; reflexivity.
Qed.

Lemma parse_edges_returned p w es s :
  parse_edges repr (p, w) = (inr es, s) →
  truthy (raw_data p) = true
  ∧ forallb is_dict (entries "edges" (raw_data p)) = true
  ∧ es = edge_record repr <$> dict_entries "edges" (raw_data p)
  ∧ edges s.1 = es.
Proof.
  unfold parse_edges, dict_entries, entries. run_monad.
  destruct (truthy (raw_data p)) eqn:Ht; simpl; [|discriminate].
  destruct (raw_data p) as [| | | | |?|doc] eqn:Hraw; try discriminate.
  destruct (default (PList []) (doc !! "edges")) as [| | | | s0 |l|d] eqn:Hobj;
    run_monad; try discriminate.
  - destruct (String.list_ascii_of_string s0) as [|c cs] eqn:Hs.
    + simpl. intros [= <- <-]. done.
    + destruct (edge_loop_fails
                  ((λ c, PStr (String c EmptyString)) <$> (c :: cs))
                  (set_edges [] p) w) as (e & s' & He); [done|].
      rewrite He. discriminate.
  - destruct (forallb is_dict l) eqn:Hl.
    + rewrite (edge_loop l (set_edges [] p) w Hl). simpl.
      intros [= <- <-]. done.
    + destruct (edge_loop_fails l (set_edges [] p) w Hl) as (e & s' & He).
      rewrite He. discriminate.
  - destruct (map_to_list d) as [|kv kvs] eqn:Hd.
    + simpl. intros [= <- <-]. done.
    + destruct (edge_loop_fails
                  ((λ kv : string * pyval, PStr kv.1) <$> (kv :: kvs))
                  (set_edges [] p) w) as (e & s' & He); [done|].
      rewrite He. discriminate.
Qed.

(** What a record holds under a key, from the entry it was built of. *)
Lemma node_record_lookup (d : dict) (k : string) :
  node_record repr d !! k =
    let name := default (PStr "") (d !! "name") in
    let fixed : dict :=
      <["label" := default name (d !! "label")]>
        (<["name" := name]>
           (<["id" := PStr (str repr (default PNone (d !! "_gvid")))]> ∅)) in
    match d !! k with
    | Some v => if bool_decide (k ∈ node_excluded) then fixed !! k else Some v
    | None => fixed !! k
    end.
Proof. apply copy_items_lookup. Qed.

Lemma edge_record_lookup (d : dict) (k : string) :
  edge_record repr d !! k =
    let fixed : dict :=
      <["label" := default (PStr "DEPENDS_ON") (d !! "label")]>
        (<["target" := PStr (str repr (default PNone (d !! "head")))]>
           (<["source" := PStr (str repr (default PNone (d !! "tail")))]> ∅)) in
    match d !! k with
    | Some v => if bool_decide (k ∈ edge_excluded) then fixed !! k else Some v
    | None => fixed !! k
    end.
Proof. apply copy_items_lookup. Qed.

Lemma extra_attributes_None (fields : list string) (record : dict) (k : string) :
  (k ∉ fields → record !! k = None) → extra_attributes fields record !! k = None.
Proof.
  intros H. unfold extra_attributes. apply map_lookup_filter_None.
  destruct (decide (k ∈ fields)) as [Hin|Hout].
  - right. intros x _ Hx. by apply Hx.
  - left. by apply H.
Qed.

Lemma node_record_extra (d : dict) (k : string) :
  k ∈ node_excluded → extra_attributes node_fields (node_record repr d) !! k = None.
Proof.
  intros Hk. apply extra_attributes_None. intros Hf.
  unfold node_record. rewrite copy_items_excluded by done.
  unfold node_fields in Hf.
  rewrite !lookup_insert_ne; [apply lookup_empty|..]; intros <-; apply Hf; rewrite !elem_of_cons; auto.
Qed.

Lemma edge_record_extra (d : dict) (k : string) :
  k ∈ edge_excluded → extra_attributes edge_fields (edge_record repr d) !! k = None.
Proof.
  intros Hk. apply extra_attributes_None. intros Hf.
  unfold edge_record. rewrite copy_items_excluded by done.
  unfold edge_fields in Hf.
  rewrite !lookup_insert_ne; [apply lookup_empty|..]; intros <-; apply Hf; rewrite !elem_of_cons; auto.
Qed.
End Loops.

Lemma all_dicts (l : list pyval) :
  forallb is_dict l = true → PDict <$> omap as_dict l = l.
Proof.
  induction l as [|v l IH]; [done|]. simpl. intros H.
  apply andb_true_iff in H as [Hv Hl]. destruct v; try discriminate.
  simpl. f_equal. by apply IH.
Qed.

(** *** C3 *)

(** C3, as stated, fails: the entry [{"_gvid": null}] carries the
    identifier field, yet [parse_nodes] skips it, so the list returned is
    shorter than the number of entries that carry the field. *)
Lemma null_identifier_entry_is_skipped :
  graph_shaped "objects" null_identifier_document = true
  ∧ (parse_nodes plain_repr (loaded null_identifier_document, quiet)).1 = inr []
  ∧ length (filter carries_id (dict_entries "objects" null_identifier_document)) = 1%nat.
Proof. vm_compute. done. Qed.

(** C3, amended: for a loaded, non-empty document whose [objects] are
    absent or a list of objects, [parse_nodes] returns and stores exactly
    one record per entry whose [_gvid] is present and not null, in
    document order, and skips the others; the length of the result is the
    number of such entries. *)
Theorem parse_nodes_one_record_per_identified_entry
    {DB} (repr : pyval → string) (p : TerraformGraphParser) (w : world DB) :
  graph_shaped "objects" (raw_data p) = true →
  ∃ ns s,
    parse_nodes repr (p, w) = (inr ns, s)
    ∧ ns = node_record repr <$> filter has_id (dict_entries "objects" (raw_data p))
    ∧ nodes s.1 = ns
    ∧ length ns = length (filter has_id (dict_entries "objects" (raw_data p))).
Proof.
  intros H. eexists _, _. split; [by apply parse_nodes_shaped|].
  split; [done|]. split; [done|]. by rewrite length_fmap.
Qed.

Lemma parse_nodes_one_record_per_identified_entry_witness :
  ∃ ns s,
    parse_nodes plain_repr (loaded mixed_document, quiet) = (inr ns, s)
    ∧ ns = node_record plain_repr
             <$> filter has_id (dict_entries "objects" mixed_document)
    ∧ nodes s.1 = ns
    ∧ length ns = length (filter has_id (dict_entries "objects" mixed_document)).
Proof.
  apply (parse_nodes_one_record_per_identified_entry
           plain_repr (loaded mixed_document) quiet).
  vm_compute. reflexivity.
Defined.

(** *** C1 *)

(** C1, as stated, fails for edges: the tail-draw attribute [_tdraw_]
    is not in the exclusion list of [parse_edges], which copies it into
    the record. *)
Lemma tail_draw_attribute_is_copied :
  "_tdraw_" ∈ specified_edge_excluded
  ∧ ∃ e, returned (parse_edges plain_repr (loaded tail_draw_document, quiet)) = [e]
         ∧ extra_attributes edge_fields e !! "_tdraw_" = Some (PStr "x").
Proof.
  split; [unfold specified_edge_excluded; rewrite !elem_of_cons; auto 10|].
  eexists. split; [vm_compute; reflexivity|]. vm_compute. reflexivity.
Qed.

(** C1, amended: in every record that [parse_nodes] returns, none of
    [_gvid], [name], [label], [_draw_], [_ldraw_] is an extra attribute,
    and in every record that [parse_edges] returns none of [tail],
    [head], [label], [_draw_], [_ldraw_], [_hdraw_] is. *)
Theorem excluded_keys_are_not_extra_attributes
    {DB} (repr : pyval → string) (p : TerraformGraphParser) (w : world DB) :
  Forall (λ n : dict, ∀ k, k ∈ node_excluded →
                           extra_attributes node_fields n !! k = None)
         (returned (parse_nodes repr (p, w)))
  ∧ Forall (λ e : dict, ∀ k, k ∈ edge_excluded →
                             extra_attributes edge_fields e !! k = None)
           (returned (parse_edges repr (p, w))).
Proof.
  split; unfold returned.
  - destruct (parse_nodes repr (p, w)) as [[e|ns] s] eqn:Hrun; simpl; [done|].
    apply parse_nodes_returned in Hrun as (_ & _ & -> & _).
    apply Forall_fmap, Forall_forall. intros d _ k Hk. by apply node_record_extra.
  - destruct (parse_edges repr (p, w)) as [[e|es] s] eqn:Hrun; simpl; [done|].
    apply parse_edges_returned in Hrun as (_ & _ & -> & _).
    apply Forall_fmap, Forall_forall. intros d _ k Hk. by apply edge_record_extra.
Qed.

(** *** C5 *)

(** C5: when [parse_nodes] returns, the record of a kept entry that has
    no [label] field has as label the entry's [name], and the empty
    string if the entry has no [name] either. *)
Theorem label_defaults_to_name
    {DB} (repr : pyval → string) (p : TerraformGraphParser) (w : world DB)
    (ns : list dict) s (i : nat) (d n : dict) :
  parse_nodes repr (p, w) = (inr ns, s) →
  filter has_id (dict_entries "objects" (raw_data p)) !! i = Some d →
  ns !! i = Some n →
  d !! "label" = None →
  n !! "label" = Some (default (PStr "") (d !! "name"))
  ∧ n !! "label" = n !! "name".
Proof.
  intros Hrun Hd Hn Hlabel.
  apply parse_nodes_returned in Hrun as (_ & _ & -> & _).
  rewrite list_lookup_fmap, Hd in Hn. injection Hn as <-.
  rewrite !node_record_lookup. cbv zeta. rewrite Hlabel. simpl.
  rewrite lookup_insert_eq.
  rewrite lookup_insert_ne, lookup_insert_eq by done.
  split; [done|]. by destruct (d !! "name").
Qed.

Lemma label_defaults_to_name_witness :
  node_record plain_repr named_entry !! "label"
    = Some (default (PStr "") (named_entry !! "name"))
  ∧ node_record plain_repr named_entry !! "label"
    = node_record plain_repr named_entry !! "name".
Proof.
  refine (label_defaults_to_name plain_repr (loaded mixed_document) quiet
            [node_record plain_repr named_entry] _ 0%nat named_entry
            (node_record plain_repr named_entry) _ _ _ _).
  - vm_compute. reflexivity.
  - vm_compute. reflexivity.
  - vm_compute. reflexivity.
  - vm_compute. reflexivity.
Defined.

(** *** C6 *)

(** C6: when [parse_edges] returns, the record of an entry that has no
    [label] field has the label ["DEPENDS_ON"]. *)
Theorem edge_label_defaults_to_depends_on
    {DB} (repr : pyval → string) (p : TerraformGraphParser) (w : world DB)
    (es : list dict) s (i : nat) (d e : dict) :
  parse_edges repr (p, w) = (inr es, s) →
  dict_entries "edges" (raw_data p) !! i = Some d →
  es !! i = Some e →
  d !! "label" = None →
  e !! "label" = Some (PStr "DEPENDS_ON").
Proof.
  intros Hrun Hd He Hlabel.
  apply parse_edges_returned in Hrun as (_ & _ & -> & _).
  rewrite list_lookup_fmap, Hd in He. injection He as <-.
  rewrite edge_record_lookup. cbv zeta. rewrite Hlabel. simpl.
  by rewrite lookup_insert_eq.
Qed.

Lemma edge_label_defaults_to_depends_on_witness :
  edge_record plain_repr headed_entry !! "label" = Some (PStr "DEPENDS_ON").
Proof.
  refine (edge_label_defaults_to_depends_on
            plain_repr (loaded mixed_document) quiet
            [edge_record plain_repr (<["tail" := PInt 7]> {["label" := PStr "uses"]});
             edge_record plain_repr headed_entry]
            _ 1%nat headed_entry (edge_record plain_repr headed_entry) _ _ _ _).
  - vm_compute. reflexivity.
  - vm_compute. reflexivity.
  - vm_compute. reflexivity.
  - vm_compute. reflexivity.
Defined.

(** *** C10 *)

(** C10, as stated, fails: the entry [{"head": 1, "source": "vpc"}] has
    no [tail], yet the [source] of its record is not ["None"]: the copy
    of the remaining fields writes the entry's own [source] over it. *)
Lemma source_field_overwrites_missing_tail :
  ∃ d e : dict,
    dict_entries "edges" source_field_document = [d]
    ∧ d !! "tail" = None
    ∧ returned (parse_edges plain_repr (loaded source_field_document, quiet)) = [e]
    ∧ e !! "source" = Some (PStr "vpc").
Proof.
  eexists _, _. split; [vm_compute; reflexivity|].
  split; [vm_compute; reflexivity|].
  split; vm_compute; reflexivity.
Qed.

(** C10, amended: for a loaded, non-empty document whose [edges] are
    absent or a list of objects, [parse_edges] returns one record per
    entry, in order, skipping none; the [source] of the record of an
    entry without [tail] is the string ["None"] unless the entry has a
    field named [source], and likewise [target] for [head]. *)
Theorem parse_edges_keeps_every_entry
    {DB} (repr : pyval → string) (p : TerraformGraphParser) (w : world DB) :
  graph_shaped "edges" (raw_data p) = true →
  ∃ es s,
    parse_edges repr (p, w) = (inr es, s)
    ∧ length es = length (entries "edges" (raw_data p))
    ∧ ∀ i v, entries "edges" (raw_data p) !! i = Some v →
        ∃ d e, v = PDict d ∧ es !! i = Some e
          ∧ (d !! "tail" = None → d !! "source" = None →
             e !! "source" = Some (PStr "None"))
          ∧ (d !! "head" = None → d !! "target" = None →
             e !! "target" = Some (PStr "None")).
Proof.
  intros H. eexists _, _. split; [by apply parse_edges_shaped|].
  assert (Hmap : PDict <$> dict_entries "edges" (raw_data p)
                 = entries "edges" (raw_data p)).
  { apply andb_true_iff in H as [_ H]. unfold dict_entries, entries.
    destruct (raw_data p); try done.
    destruct (default _ _); try done. by apply all_dicts. }
  split.
  - rewrite length_fmap. by rewrite <- Hmap, length_fmap.
  - intros i v Hv. rewrite <- Hmap, list_lookup_fmap in Hv.
    destruct (dict_entries "edges" (raw_data p) !! i) as [d|] eqn:Hd; [|done].
    injection Hv as <-. exists d, (edge_record repr d).
    split; [done|]. split; [by rewrite list_lookup_fmap, Hd|].
    split; intros Hend Hkey; rewrite edge_record_lookup; cbv zeta;
      rewrite Hkey, Hend; simpl.
    + by rewrite lookup_insert_ne, lookup_insert_ne, lookup_insert_eq.
    + by rewrite lookup_insert_ne, lookup_insert_eq.
Qed.

Lemma parse_edges_keeps_every_entry_witness :
  ∃ es s,
    parse_edges plain_repr (loaded mixed_document, quiet) = (inr es, s)
    ∧ length es = length (entries "edges" mixed_document)
    ∧ ∀ i v, entries "edges" mixed_document !! i = Some v →
        ∃ d e, v = PDict d ∧ es !! i = Some e
          ∧ (d !! "tail" = None → d !! "source" = None →
             e !! "source" = Some (PStr "None"))
          ∧ (d !! "head" = None → d !! "target" = None →
             e !! "target" = Some (PStr "None")).
Proof.
  apply (parse_edges_keeps_every_entry plain_repr (loaded mixed_document) quiet).
  vm_compute. reflexivity.
Defined.

(** *** C2 and C7: the load check *)

Lemma load_graph_loads {DB} (p : TerraformGraphParser) (w : world DB) (v : pyval) :
  files w !! file_path p = Some (Json v) →
  load_graph (p, w) =
    (inr (), (set_raw_data v p,
              emit (Print ("✓ Graph file loaded successfully from " +:+ file_path p)) w)).
Proof. intros H. unfold load_graph. run_monad. by rewrite H. Qed.

(** A load that fails leaves the parser as it was. *)
Lemma load_graph_fails {DB} (p : TerraformGraphParser) (w : world DB) e s :
  load_graph (p, w) = (inl e, s) → s = (p, w).
Proof.
  unfold load_graph. run_monad.
  destruct (files w !! file_path p) as [[why|e'|v]|]; [| destruct e' |..];
    intros [= <- <-]; done.
Qed.

Lemma empty_dict_falsy : truthy (PDict ∅) = false.
Proof. simpl. by rewrite map_size_empty. Qed.

(** The three methods test the truth value of the loaded data. *)
Lemma falsy_data_is_not_loaded
    {DB} (repr : pyval → string) (p : TerraformGraphParser) (w : world DB) :
  truthy (raw_data p) = false →
  parse_nodes repr (p, w) = (inl not_loaded, (p, w))
  ∧ parse_edges repr (p, w) = (inl not_loaded, (p, w))
  ∧ get_graph_metadata (p, w) = (inl not_loaded, (p, w)).
Proof.
  intros H. unfold parse_nodes, parse_edges, get_graph_metadata. run_monad.
  by rewrite H.
Qed.

Lemma get_graph_metadata_truthy
    {DB} (p : TerraformGraphParser) (w : world DB) (doc : dict) :
  raw_data p = PDict doc → doc ≠ ∅ →
  get_graph_metadata (p, w) =
    (inr (Metadata (default (PStr "terraform_graph") (doc !! "name"))
                   (default (PBool true) (doc !! "directed"))
                   (default (PBool false) (doc !! "strict"))
                   (Z.of_nat (length (nodes p)))
                   (Z.of_nat (length (edges p)))),
     (p, w)).
Proof.
  intros Hraw Hdoc. unfold get_graph_metadata. run_monad. rewrite Hraw. simpl.
  apply map_size_non_empty_iff in Hdoc.
  destruct (size doc) eqn:Hsize; [done|]. reflexivity.
Qed.

(** C2 (defect in the code): a parser that never loaded raises the
    not-loaded error, as claimed; but so does a parser that has loaded
    the document [{}] with success, in [parse_nodes], [parse_edges] and
    [get_graph_metadata] alike. *)
Theorem empty_document_counts_as_not_loaded
    {DB} (repr : pyval → string) (path : string) (w : world DB) :
  (parse_nodes repr (init path, w)).1 = inl not_loaded
  ∧ ∃ s, load_graph (init path, set_file path (Json (PDict ∅)) w) = (inr (), s)
         ∧ raw_data s.1 = PDict ∅
         ∧ (parse_nodes repr s).1 = inl not_loaded
         ∧ (parse_edges repr s).1 = inl not_loaded
         ∧ (get_graph_metadata s).1 = inl not_loaded.
Proof.
  split; [done|]. eexists. split.
  - apply load_graph_loads. simpl. apply lookup_insert_eq.
  - simpl. split; [done|].
    by destruct (falsy_data_is_not_loaded repr (set_raw_data (PDict ∅) (init path))
                   (emit (Print ("✓ Graph file loaded successfully from " +:+ path))
                         (set_file path (Json (PDict ∅)) w)) empty_dict_falsy)
      as (-> & -> & ->).
Qed.

(** C7 (defect in the code, the same as in C2): for the loaded document
    [{}] [get_graph_metadata] raises the not-loaded error instead of
    returning the defaults. For every other loaded object it returns the
    top-level [name], [directed] and [strict] with the defaults
    ["terraform_graph"], [True] and [False], and the lengths of the
    stored node and edge lists, which are zero on a parser that has not
    parsed yet. *)
Theorem metadata_of_loaded_document {DB} (path : string) (w : world DB) :
  (∃ s, load_graph (init path, set_file path (Json (PDict ∅)) w) = (inr (), s)
        ∧ (get_graph_metadata s).1 = inl not_loaded)
  ∧ (∀ (p : TerraformGraphParser) (doc : dict),
       raw_data p = PDict doc → doc ≠ ∅ →
       get_graph_metadata (p, w) =
         (inr (Metadata (default (PStr "terraform_graph") (doc !! "name"))
                        (default (PBool true) (doc !! "directed"))
                        (default (PBool false) (doc !! "strict"))
                        (Z.of_nat (length (nodes p)))
                        (Z.of_nat (length (edges p)))),
          (p, w)))
  ∧ (∀ doc : dict, doc ≠ ∅ →
       ∃ m, (get_graph_metadata (set_raw_data (PDict doc) (init path), w)).1 = inr m
            ∧ node_count m = 0 ∧ edge_count m = 0).
Proof.
  split; [|split].
  - eexists. split; [apply load_graph_loads; simpl; apply lookup_insert_eq|].
    simpl.
    by destruct (falsy_data_is_not_loaded plain_repr
                   (set_raw_data (PDict ∅) (init path))
                   (emit (Print ("✓ Graph file loaded successfully from " +:+ path))
                         (set_file path (Json (PDict ∅)) w)) empty_dict_falsy)
      as (_ & _ & ->).
  - intros p doc. apply get_graph_metadata_truthy.
  - intros doc Hdoc. eexists.
    rewrite (get_graph_metadata_truthy (set_raw_data (PDict doc) (init path))
               w doc eq_refl Hdoc). done.
Qed.
End ParserFacts.

(* ===================================================================== *)
(** ** Properties of the connector *)
(* ===================================================================== *)

Module ConnectorFacts.
Import Py Driver Parser Connector Doc Samples MoreSamples.

Section Order.
Context {DB : Type} `{!Server DB}.
Variable repr : pyval → string.

Abbreviation CM := (M (Neo4jConnector * world DB)).

Lemma follows_ret {A} (a : A) (post : A → list event → Prop) :
  post a [] → follows (ret a : CM A) [] post.
Proof.
  intros Hpost s. exists []. simpl. rewrite app_nil_r.
  split; [done|]. split; [done|]. by intros ? [= <-].
Qed.

Lemma follows_raise {A} (e : exn) (post : A → list event → Prop) :
  follows (raise e : CM A) [] post.
Proof.
  intros s. exists []. simpl. rewrite app_nil_r.
  split; [done|]. split; [done|]. discriminate.
Qed.

Lemma follows_print (line : string) :
  follows (print line : CM unit) [] (λ _ _, True).
Proof.
  intros s. exists [Print line]. simpl.
  split; [done|]. split; [done|]. done.
Qed.

Lemma follows_bind {A B} (m : CM A) (k : A → CM B) plan1 plan2
      (post1 : A → list event → Prop) (post2 : A → B → list event → Prop)
      (post : B → list event → Prop) :
  follows m plan1 post1 →
  (∀ a, follows (k a) plan2 (post2 a)) →
  (∀ a b t1 t2, post1 a t1 → post2 a b t2 → post b (t1 ++ t2)) →
  follows (m ≫= k) (plan1 ++ plan2) post.
Proof.
  intros Hm Hk Hpost s. unfold mbind, M_bind, bind.
  destruct (Hm s) as (t1 & Ht1 & Hpre1 & Hret1).
  destruct (m s) as [[e|a] s1] eqn:Hrun; simpl in *.
  - exists t1. split; [done|]. split; [by apply prefix_app_r|]. discriminate.
  - destruct (Hret1 a eq_refl) as [Hq1 Hp1].
    destruct (Hk a s1) as (t2 & Ht2 & Hpre2 & Hret2).
    exists (t1 ++ t2). split; [by rewrite Ht2, Ht1, app_assoc|].
    unfold queries in *. rewrite omap_app, Hq1.
    split; [by apply prefix_app|].
    intros b Hb. destruct (Hret2 b Hb) as [Hq2 Hp2].
    split; [by rewrite Hq2|]. by eapply Hpost.
Qed.

Lemma follows_weaken {A} (m : CM A) plan (post post' : A → list event → Prop) :
  follows m plan post → (∀ a t, post a t → post' a t) → follows m plan post'.
Proof.
  intros Hm Hpost s. destruct (Hm s) as (t & Ht & Hpre & Hret).
  exists t. split; [done|]. split; [done|].
  intros a Ha. destruct (Hret a Ha). split; [done|]. by apply Hpost.
Qed.

Lemma follows_session : follows (session : CM endpoint) [] (λ _ _, True).
Proof.
  intros [c w]. exists []. unfold session, self, gets, mbind, M_bind, bind.
  simpl. rewrite app_nil_r. by destruct (driver c).
Qed.

Lemma follows_session_run (ep : endpoint) (q : query) :
  follows (session_run ep q : CM (list dict)) [q] (λ records t, t = [Run q (inr records)]).
Proof.
  intros [c w]. unfold session_run. simpl.
  destruct (run ep q (db w)) as [r d] eqn:Hrun. simpl.
  exists [Run q r]. split; [done|]. split; [done|].
  by intros records ->.
Qed.

Lemma follows_single_field (records : list dict) (key : string) :
  follows (single_field records key : CM pyval) []
          (λ v _, ∃ record rest, records = record :: rest ∧ record !! key = Some v).
Proof.
  intros s. exists []. rewrite app_nil_r. unfold single_field.
  destruct records as [|record rest]; [by repeat split|].
  destruct (record !! key) as [v|] eqn:Hv; [|by repeat split].
  split; [done|]. split; [done|]. intros ? [= <-]. eauto.
Qed.

Lemma follows_clear_database :
  follows (clear_database : CM unit) [DeleteAll] (λ _ _, True).
Proof.
  unfold clear_database.
  apply (follows_bind _ _ [] [DeleteAll] (λ _ _, True) (λ _ _ _, True));
    [apply follows_session| |done].
  intros ep.
  apply (follows_bind _ _ [DeleteAll] [] (λ _ _, True) (λ _ _ _, True));
    [|intros; apply follows_print|done].
  eapply follows_weaken; [apply follows_session_run|done].
Qed.

(** A failure of the constraint statement is caught, so that
    [create_constraints] raises only for want of a driver. *)
Lemma follows_create_constraints :
  follows (create_constraints : CM unit) [CreateConstraint] (λ _ _, True).
Proof.
  intros [c w]. unfold create_constraints, session, session_run, try_except,
    self, gets, print, modify, mbind, M_bind, bind, ret, raise. simpl.
  destruct (driver c) as [ep|]; simpl.
  - destruct (run ep CreateConstraint (db w)) as [[e|records] d] eqn:Hrun; simpl.
    + destruct (is_exception e); simpl.
      * eexists. split; [by rewrite <- app_assoc|]. by repeat split.
      * eexists. split; [done|]. by repeat split.
    + eexists. split; [by rewrite <- app_assoc|]. by repeat split.
  - exists []. rewrite app_nil_r. split; [done|].
    split; [apply prefix_nil|discriminate].
Qed.

Lemma follows_bind_silent {A B} (m : CM A) (k : A → CM B) plan
      (post1 : A → list event → Prop) (post2 : A → B → list event → Prop)
      (post : B → list event → Prop) :
  follows m plan post1 →
  (∀ a, follows (k a) [] (post2 a)) →
  (∀ a b t1 t2, post1 a t1 → post2 a b t2 → post b (t1 ++ t2)) →
  follows (m ≫= k) plan post.
Proof.
  intros Hm Hk Hpost. rewrite <- (app_nil_r plan). by eapply follows_bind.
Qed.

Lemma upserted_app_l (q : list dict → query) rows count t1 t2 :
  upserted q rows count t1 → upserted q rows count (t1 ++ t2).
Proof.
  destruct rows; [done|]. intros (record & rest & Hin & Hcount).
  exists record, rest. split; [|done]. apply elem_of_app. by left.
Qed.

Lemma upserted_app_r (q : list dict → query) rows count t1 t2 :
  upserted q rows count t2 → upserted q rows count (t1 ++ t2).
Proof.
  destruct rows; [done|]. intros (record & rest & Hin & Hcount).
  exists record, rest. split; [|done]. apply elem_of_app. by right.
Qed.

(** An upsert sends its statement once, unless there are no rows, and
    returns the count the server answers. *)
Lemma follows_upsert (q : list dict → query) (none what : string)
      (rows : list dict) :
  follows (match rows with
           | [] => print none;; ret (PInt 0)
           | _ =>
               ep ← session;
               result ← session_run ep (q rows);
               count ← single_field result "count";
               print ("✓ Ingested " +:+ str repr count +:+ " " +:+ what);;
               ret count
           end : CM pyval)
          (upsert_plan q rows)
          (upserted q rows).
Proof.
  destruct rows as [|row rows].
  - apply (follows_bind _ _ [] [] (λ _ _, True) (λ _ count _, count = PInt 0));
      [apply follows_print| |].
    + intros ?. by apply follows_ret.
    + by intros ? count t1 t2 _ ->.
  - set (sent := q (row :: rows)).
    set (field (records : list dict) (count : pyval) :=
           ∃ record rest, records = record :: rest ∧ record !! "count" = Some count).
    apply (follows_bind _ _ [] [sent] (λ _ _, True)
             (λ _, upserted q (row :: rows)));
      [apply follows_session| |].
    + intros ep.
      apply (follows_bind_silent _ _ [sent]
               (λ records t, t = [Run sent (inr records)])
               (λ records count _, field records count));
        [apply follows_session_run| |].
      * intros result.
        apply (follows_bind _ _ [] [] (λ count _, field result count)
                 (λ count c _, c = count));
          [apply follows_single_field| |].
        -- intros count.
           apply (follows_bind _ _ [] [] (λ _ _, True) (λ _ c _, c = count));
             [apply follows_print| |].
           ++ intros ?. by apply follows_ret.
           ++ by intros ? c t1 t2 _ ->.
        -- by intros count c t1 t2 Hfield ->.
      * intros result count t1 t2 -> (record & rest & -> & Hcount).
        exists record, rest. split; [|done]. apply elem_of_app. left.
        apply list_elem_of_singleton. reflexivity.
    + intros ep count t1 t2 _ Hup. by apply upserted_app_r.
Qed.

Lemma follows_ingest_nodes (rows : list dict) :
  follows (ingest_nodes repr rows)
          (upsert_plan MergeNodes rows)
          (upserted MergeNodes rows).
Proof.
  pose proof (follows_upsert MergeNodes "⚠ No nodes to ingest" "nodes" rows) as H.
  by destruct rows.
Qed.

Lemma follows_ingest_edges (rows : list dict) :
  follows (ingest_edges repr rows)
          (upsert_plan MergeEdges rows)
          (upserted MergeEdges rows).
Proof.
  pose proof (follows_upsert MergeEdges "⚠ No edges to ingest" "relationships" rows)
    as H.
  by destruct rows.
Qed.

Lemma follows_ingest_graph (g : graph_data) (clear_existing : bool) :
  follows (ingest_graph repr g clear_existing)
          (ingest_plan g clear_existing)
          (λ counts t,
             upserted MergeNodes (gd_nodes g) (ic_nodes counts) t
             ∧ upserted MergeEdges (gd_edges g) (ic_edges counts) t).
Proof.
  unfold ingest_graph, ingest_plan.
  apply (follows_bind _ _ _ _ (λ _ _, True)
           (λ _ counts t,
              upserted MergeNodes (gd_nodes g) (ic_nodes counts) t
              ∧ upserted MergeEdges (gd_edges g) (ic_edges counts) t)).
  { destruct clear_existing; [apply follows_clear_database|by apply follows_ret]. }
  2: { intros ? counts t1 t2 _ [Hn He].
       split; by apply upserted_app_r. }
  intros ?.
  apply (follows_bind _ _ _ _ (λ _ _, True)
           (λ _ counts t,
              upserted MergeNodes (gd_nodes g) (ic_nodes counts) t
              ∧ upserted MergeEdges (gd_edges g) (ic_edges counts) t)).
  { apply follows_create_constraints. }
  2: { intros ? counts t1 t2 _ [Hn He].
       split; by apply upserted_app_r. }
  intros ?.
  apply (follows_bind _ _ _ _ (upserted MergeNodes (gd_nodes g))
           (λ nodes_count counts t,
              ic_nodes counts = nodes_count
              ∧ upserted MergeEdges (gd_edges g) (ic_edges counts) t)).
  { apply follows_ingest_nodes. }
  2: { intros nodes_count counts t1 t2 Hn [-> He].
       split; [by apply upserted_app_l|by apply upserted_app_r]. }
  intros nodes_count.
  apply (follows_bind_silent _ _ _ (upserted MergeEdges (gd_edges g))
           (λ edges_count counts _,
              ic_nodes counts = nodes_count ∧ ic_edges counts = edges_count)).
  { apply follows_ingest_edges. }
  2: { intros edges_count counts t1 t2 He [-> ->].
       split; [done|by apply upserted_app_l]. }
  intros edges_count.
  set (post (counts : ingest_counts) (_ : list event) :=
         ic_nodes counts = nodes_count ∧ ic_edges counts = edges_count).
  repeat (apply (follows_bind _ _ [] [] (λ _ _, True) (λ _, post));
          [apply follows_print|intros ?|by intros]).
  by apply follows_ret.
Qed.

Lemma ingest_plan_sorted (g : graph_data) (clear_existing : bool) :
  StronglySorted lt (rank <$> ingest_plan g clear_existing).
Proof.
  unfold ingest_plan.
  destruct clear_existing, (gd_nodes g), (gd_edges g); simpl;
    repeat (constructor; try lia).
Qed.
End Order.

(** *** C8 *)

(** On a connector that has connected, whose server answers the
    statements of the plan, [ingest_graph] returns. *)
Lemma ingest_graph_returns
    {DB} `{!Server DB} (repr : pyval → string) (g : graph_data)
    (clear_existing : bool) (c : Neo4jConnector) (w : world DB) (ep : endpoint) :
  driver c = Some ep →
  serves ep (ingest_plan g clear_existing) (db w) = true →
  ∃ counts, (ingest_graph repr g clear_existing (c, w)).1 = inr counts.
Proof.
  intros Hd Hs. unfold ingest_plan in Hs.
  unfold ingest_graph, clear_database, create_constraints, ingest_nodes, ingest_edges,
    session, session_run, single_field, try_except, print,
    mbind, M_bind, mret, M_ret, bind, ret, raise, self, gets, update, modify.
  destruct clear_existing, (gd_nodes g) as [|n ns], (gd_edges g) as [|e es];
    simpl in Hs |- *; rewrite ?Hd; simpl;
    repeat (match goal with
            | |- context [run ?e ?q ?d] =>
                let E := fresh "E" in
                destruct (run e q d) as [[?|[|? ?]] ?] eqn:E; rewrite ?E in Hs
            | |- context [is_exception ?e] =>
                let E := fresh "E" in
                destruct (is_exception e) eqn:E; rewrite ?E in Hs
            | |- context [?r !! "count"] =>
                let E := fresh "E" in
                destruct (r !! "count") eqn:E; rewrite ?E in Hs
            end; simpl in Hs |- *; rewrite ?Hd; simpl);
    first [ discriminate Hs | by eexists ].
Qed.

(** C8: whatever the server answers, [ingest_graph] sends its
    statements in the order clear (if asked), constraint, node upsert,
    edge upsert: the statements sent are a beginning of that plan, each
    one sent after the answer to the one before, so that no edge upsert
    is sent before the node upsert is answered; when it returns it has
    sent the whole plan and returns the node count and the edge count
    that the two upserts report. And it does return, on a connector that
    has connected, when the server answers each statement of the plan. *)
Theorem ingest_graph_keeps_order
    {DB} `{!Server DB} (repr : pyval → string) (g : graph_data)
    (clear_existing : bool) (c : Neo4jConnector) (w : world DB) :
  ∃ t,
    trace (ingest_graph repr g clear_existing (c, w)).2.2 = trace w ++ t
    ∧ queries t `prefix_of` ingest_plan g clear_existing
    ∧ StronglySorted lt (rank <$> queries t)
    ∧ (∀ counts,
        (ingest_graph repr g clear_existing (c, w)).1 = inr counts →
        queries t = ingest_plan g clear_existing
        ∧ upserted MergeNodes (gd_nodes g) (ic_nodes counts) t
        ∧ upserted MergeEdges (gd_edges g) (ic_edges counts) t)
    ∧ (∀ ep,
        driver c = Some ep →
        serves ep (ingest_plan g clear_existing) (db w) = true →
        ∃ counts, (ingest_graph repr g clear_existing (c, w)).1 = inr counts).
Proof.
  destruct (follows_ingest_graph repr g clear_existing (c, w))
    as (t & Ht & Hpre & Hret).
  exists t. split; [done|]. split; [done|]. split; [|split; [done|]].
  - destruct Hpre as [k Hk].
    pose proof (ingest_plan_sorted g clear_existing) as Hs.
    rewrite Hk, fmap_app in Hs. by apply StronglySorted_app_1_l in Hs.
  - intros ep. apply ingest_graph_returns.
Qed.

Lemma ingest_graph_keeps_order_witness :
  ∃ counts,
    (ingest_graph plain_repr scenario_graph true (connected, scenario_world)).1
      = inr counts.
Proof.
  destruct (ingest_graph_keeps_order plain_repr scenario_graph true connected
              scenario_world) as (t & _ & _ & _ & _ & Hreturns).
  apply (Hreturns (Endpoint "bolt://localhost:7687" "neo4j" "secret")).
  - reflexivity.
  - vm_compute. reflexivity.
Defined.

End ConnectorFacts.

(* ===================================================================== *)
(** ** The end-to-end scenario and the command line *)
(* ===================================================================== *)

Module ProgramFacts.
Import Py Driver Parser Connector Doc Samples.

(** *** C4 *)

(** C4 (defect in the code): on the scenario document [parse] returns
    the two node records and the edge record that the claim describes,
    and loading them into an empty database touches two nodes and one
    relationship; but [get_stats] then reports two relationships, not
    one: its query pairs every node with every relationship and counts
    the pairs. *)
Theorem scenario_counts_the_relationship_twice (repr : pyval → string) :
  let node0 : dict :=
    <["id" := PStr "0"]>
      (<["name" := PStr "aws_instance.web"]> {["label" := PStr "aws_instance.web"]}) in
  let node1 : dict :=
    <["id" := PStr "1"]>
      (<["name" := PStr "aws_security_group.sg"]>
         {["label" := PStr "aws_security_group.sg"]}) in
  let edge : dict :=
    <["source" := PStr "0"]>
      (<["target" := PStr "1"]> {["label" := PStr "DEPENDS_ON"]}) in
  let g := GraphData [node0; node1] [edge]
                     (Metadata (PStr "terraform_graph") (PBool true) (PBool false) 2 1) in
  let parsed := parse repr (Parser.init "graph.json", scenario_world) in
  let ingested :=
    (connect;; ingest_graph repr g true) (scenario_connector, parsed.2.2) in
  parsed.1 = inr g
  ∧ ingested.1 = inr (IngestCounts (PInt 2) (PInt 1))
  ∧ (get_stats ingested.2).1 = inr (Stats (PInt 2) (PInt 2)).
Proof. vm_compute. done. Qed.

(** *** C9 *)

(** C9: when [NEO4J_PASSWORD] is neither in the environment nor in the
    [.env] file, the program prints the two lines of the error and exits
    with status 1; it has done nothing else: no driver was opened, no
    statement sent, and the database and the files are as before. *)
Theorem missing_password_exits_before_connecting
    {DB} `{!Server DB} (repr : pyval → string) (a : Main.args) (c : Main.config)
    (w : world DB) :
  Main.environ c !! "NEO4J_PASSWORD" = None →
  Main.dotenv c !! "NEO4J_PASSWORD" = None →
  Main.run_main repr a c w =
    (1, World (files w) (db w)
              (trace w ++
               [Print "❌ Error: NEO4J_PASSWORD not set in environment variables";
                Print "Please create a .env file based on .env.example"])).
Proof.
  intros Henv Hdot.
  assert (H : (Main.environ c ∪ Main.dotenv c) !! "NEO4J_PASSWORD" = None)
    by by apply lookup_union_None.
  unfold Main.run_main, Main.main. cbv zeta. rewrite H.
  unfold Main.sys_exit, print, modify, raise, mbind, M_bind, bind, emit. simpl.
  by rewrite <- app_assoc.
Qed.

Lemma missing_password_exits_before_connecting_witness :
  Main.run_main plain_repr (Main.Args "graph.json" false false) no_password
                scenario_world =
    (1, World (files scenario_world) (db scenario_world)
              (trace scenario_world ++
               [Print "❌ Error: NEO4J_PASSWORD not set in environment variables";
                Print "Please create a .env file based on .env.example"])).
Proof.
  apply (missing_password_exits_before_connecting
           plain_repr (Main.Args "graph.json" false false) no_password scenario_world).
  - vm_compute. reflexivity.
  - vm_compute. reflexivity.
Defined.
End ProgramFacts.

(* ===================================================================== *)
(** ** Further properties of the parser *)
(* ===================================================================== *)

Module ParserMore.
Import Py Driver Parser Doc Samples MoreViews MoreSamples ParserFacts.

Section Reparse.
Context {DB : Type}.
Variable repr : pyval → string.
Implicit Types (p : TerraformGraphParser) (w : world DB).

(** What [parse_nodes] returns is decided by the loaded data alone. *)
Lemma parse_nodes_from_data p w ns s :
  parse_nodes repr (p, w) = (inr ns, s) →
  ∀ p' (w' : world DB), raw_data p' = raw_data p →
    parse_nodes repr (p', w') =
      (inr ns, (set_nodes ns p',
                emit (Print ("✓ Parsed " +:+ pretty (length ns) +:+ " nodes")) w')).
Proof.
  intros Hrun p' w' Hraw'. revert Hrun.
  unfold parse_nodes. run_monad. rewrite Hraw'.
  destruct (truthy (raw_data p)) eqn:Ht; simpl; [|discriminate].
  destruct (raw_data p) as [| | | | |?|doc] eqn:Hraw; try discriminate.
  destruct (default (PList []) (doc !! "objects")) as [| | | | s0 |l|d] eqn:Hobj;
    run_monad; try discriminate.
  - destruct (String.list_ascii_of_string s0) as [|c cs] eqn:Hs.
    + simpl. intros [= <- <-]. by destruct p'.
    + destruct (node_loop_fails repr
                  ((λ c, PStr (String c EmptyString)) <$> (c :: cs))
                  (set_nodes [] p) w) as (e & s' & He); [done|].
      rewrite He. discriminate.
  - destruct (forallb is_dict l) eqn:Hl.
    + rewrite (node_loop repr l (set_nodes [] p) w Hl).
      rewrite (node_loop repr l (set_nodes [] p') w' Hl). simpl.
      intros [= <- <-]. by destruct p'.
    + destruct (node_loop_fails repr l (set_nodes [] p) w Hl) as (e & s' & He).
      rewrite He. discriminate.
  - destruct (map_to_list d) as [|kv kvs] eqn:Hd.
    + simpl. intros [= <- <-]. by destruct p'.
    + destruct (node_loop_fails repr
                  ((λ kv : string * pyval, PStr kv.1) <$> (kv :: kvs))
                  (set_nodes [] p) w) as (e & s' & He); [done|].
      rewrite He. discriminate.
Qed.

Lemma parse_edges_from_data p w es s :
  parse_edges repr (p, w) = (inr es, s) →
  ∀ p' (w' : world DB), raw_data p' = raw_data p →
    parse_edges repr (p', w') =
      (inr es, (set_edges es p',
                emit (Print ("✓ Parsed " +:+ pretty (length es) +:+ " edges")) w')).
Proof.
  intros Hrun p' w' Hraw'. revert Hrun.
  unfold parse_edges. run_monad. rewrite Hraw'.
  destruct (truthy (raw_data p)) eqn:Ht; simpl; [|discriminate].
  destruct (raw_data p) as [| | | | |?|doc] eqn:Hraw; try discriminate.
  destruct (default (PList []) (doc !! "edges")) as [| | | | s0 |l|d] eqn:Hobj;
    run_monad; try discriminate.
  - destruct (String.list_ascii_of_string s0) as [|c cs] eqn:Hs.
    + simpl. intros [= <- <-]. by destruct p'.
    + destruct (edge_loop_fails repr
                  ((λ c, PStr (String c EmptyString)) <$> (c :: cs))
                  (set_edges [] p) w) as (e & s' & He); [done|].
      rewrite He. discriminate.
  - destruct (forallb is_dict l) eqn:Hl.
    + rewrite (edge_loop repr l (set_edges [] p) w Hl).
      rewrite (edge_loop repr l (set_edges [] p') w' Hl). simpl.
      intros [= <- <-]. by destruct p'.
    + destruct (edge_loop_fails repr l (set_edges [] p) w Hl) as (e & s' & He).
      rewrite He. discriminate.
  - destruct (map_to_list d) as [|kv kvs] eqn:Hd.
    + simpl. intros [= <- <-]. by destruct p'.
    + destruct (edge_loop_fails repr
                  ((λ kv : string * pyval, PStr kv.1) <$> (kv :: kvs))
                  (set_edges [] p) w) as (e & s' & He); [done|].
      rewrite He. discriminate.
Qed.

End Reparse.


(** X1: when [parse_nodes] returns, the list it returns is the list the
    parser stores, the stored edges and the loaded data are untouched, and
    a second call returns and stores the same list again: records of an
    earlier parse are replaced, never accumulated. *)
Theorem reparse_replaces_records
    {DB} (repr : pyval → string) (p : TerraformGraphParser) (w : world DB)
    (ns : list dict) (s : TerraformGraphParser * world DB) :
  parse_nodes repr (p, w) = (inr ns, s) →
  nodes s.1 = ns ∧ edges s.1 = edges p ∧ raw_data s.1 = raw_data p
  ∧ (parse_nodes repr s).1 = inr ns
  ∧ (parse_nodes repr s).2.1 = s.1.
Proof.
  intros Hrun.
  pose proof (parse_nodes_from_data repr p w ns s Hrun p w eq_refl) as H1.
  rewrite Hrun in H1. injection H1 as ->.
  split; [done|]. split; [done|]. split; [done|].
  rewrite (parse_nodes_from_data repr p w ns _ Hrun (set_nodes ns p) _ eq_refl).
  simpl. split; [done|]. by destruct p.
Qed.

Lemma reparse_replaces_records_witness :
  nodes mixed_parsed.1 = mixed_nodes
  ∧ edges mixed_parsed.1 = edges (loaded mixed_document)
  ∧ raw_data mixed_parsed.1 = raw_data (loaded mixed_document)
  ∧ (parse_nodes plain_repr mixed_parsed).1 = inr mixed_nodes
  ∧ (parse_nodes plain_repr mixed_parsed).2.1 = mixed_parsed.1.
Proof.
  apply (reparse_replaces_records plain_repr (loaded mixed_document) quiet).
  vm_compute. reflexivity.
Defined.

(** X2: the two parse steps do not disturb each other: if [parse_nodes]
    and then [parse_edges] return, then so do [parse_edges] and then
    [parse_nodes], with the same lists, and the parser ends in the same
    state. *)
Theorem parse_steps_commute
    {DB} (repr : pyval → string) (p : TerraformGraphParser) (w : world DB)
    (ns es : list dict) (s1 s2 : TerraformGraphParser * world DB) :
  parse_nodes repr (p, w) = (inr ns, s1) →
  parse_edges repr s1 = (inr es, s2) →
  ∃ s1' s2',
    parse_edges repr (p, w) = (inr es, s1')
    ∧ parse_nodes repr s1' = (inr ns, s2')
    ∧ s2'.1 = s2.1.
Proof.
  intros Hn He.
  pose proof (parse_nodes_from_data repr p w ns s1 Hn p w eq_refl) as H1.
  rewrite Hn in H1. injection H1 as ->.
  match type of He with
  | parse_edges _ (?p1, ?w1) = _ =>
      pose proof (parse_edges_from_data repr p1 w1 es s2 He p1 w1 eq_refl) as H2
  end.
  rewrite He in H2. injection H2 as ->.
  eexists _, _. split; [|split].
  - by apply (parse_edges_from_data repr _ _ es _ He).
  - by apply (parse_nodes_from_data repr _ _ ns _ Hn).
  - by destruct p.
Qed.

Lemma parse_steps_commute_witness :
  ∃ s1' s2',
    parse_edges plain_repr (loaded mixed_document, quiet) = (inr mixed_edges, s1')
    ∧ parse_nodes plain_repr s1' = (inr mixed_nodes, s2')
    ∧ s2'.1 = mixed_parsed_twice.1.
Proof.
  apply (parse_steps_commute plain_repr (loaded mixed_document) quiet
           mixed_nodes mixed_edges mixed_parsed mixed_parsed_twice).
  - vm_compute. reflexivity.
  - vm_compute. reflexivity.
Defined.

Lemma parse_nodes_needs_object
    {DB} (repr : pyval → string) (p : TerraformGraphParser) (w : world DB) ns s :
  parse_nodes repr (p, w) = (inr ns, s) →
  ∃ doc : dict, raw_data p = PDict doc ∧ doc ≠ ∅.
Proof.
  unfold parse_nodes. run_monad.
  destruct (truthy (raw_data p)) eqn:Ht; simpl; [|discriminate].
  destruct (raw_data p) as [| | | | |?|doc] eqn:Hraw; try discriminate.
  intros _. exists doc. split; [done|]. intros ->.
  by rewrite empty_dict_falsy in Ht.
Qed.

(** X3: when [parse] returns, the file held a JSON document, which is now
    the loaded data; the lists returned are the records of that document
    and are the lists the parser stores; and the counts in the metadata
    are the lengths of those lists. *)
Theorem parse_is_consistent
    {DB} (repr : pyval → string) (p : TerraformGraphParser) (w : world DB)
    (g : graph_data) (s : TerraformGraphParser * world DB) :
  parse repr (p, w) = (inr g, s) →
  files w !! file_path p = Some (Json (raw_data s.1))
  ∧ gd_nodes g = node_record repr <$> filter has_id (dict_entries "objects" (raw_data s.1))
  ∧ gd_edges g = edge_record repr <$> dict_entries "edges" (raw_data s.1)
  ∧ nodes s.1 = gd_nodes g
  ∧ edges s.1 = gd_edges g
  ∧ node_count (gd_metadata g) = Z.of_nat (length (gd_nodes g))
  ∧ edge_count (gd_metadata g) = Z.of_nat (length (gd_edges g)).
Proof.
  unfold parse. unfold mbind at 1 2 3 4, M_bind, bind.
  destruct (files w !! file_path p) as [[why|e|v]|] eqn:Hfile.
  1,2,4: unfold load_graph; run_monad; rewrite Hfile; try destruct e; discriminate.
  rewrite (load_graph_loads p w v Hfile).
  destruct (parse_nodes repr _) as [[e|ns] s1] eqn:Hn; [discriminate|].
  match type of Hn with
  | parse_nodes _ (?p1, ?w1) = _ =>
      pose proof (parse_nodes_from_data repr p1 w1 ns s1 Hn p1 w1 eq_refl) as H1
  end.
  rewrite Hn in H1. injection H1 as ->.
  destruct (parse_nodes_needs_object repr _ _ ns _ Hn) as (doc & Hdoc & Hne).
  apply parse_nodes_returned in Hn as (_ & _ & Hns & _).
  destruct (parse_edges repr _) as [[e|es] s2] eqn:He; [discriminate|].
  match type of He with
  | parse_edges _ (?p1, ?w1) = _ =>
      pose proof (parse_edges_from_data repr p1 w1 es s2 He p1 w1 eq_refl) as H2
  end.
  rewrite He in H2. injection H2 as ->.
  apply parse_edges_returned in He as (_ & _ & Hes & _).
  simpl in Hdoc, Hns, Hes.
  rewrite (get_graph_metadata_truthy _ _ doc) by done.
  simpl. intros [= <- <-]. simpl. by repeat split.
Qed.

Lemma parse_is_consistent_witness :
  files mixed_world !! "graph.json" = Some (Json mixed_document)
  ∧ mixed_nodes
    = node_record plain_repr <$> filter has_id (dict_entries "objects" mixed_document)
  ∧ mixed_edges = edge_record plain_repr <$> dict_entries "edges" mixed_document
  ∧ mixed_nodes = mixed_nodes
  ∧ mixed_edges = mixed_edges
  ∧ 1 = Z.of_nat (length mixed_nodes)
  ∧ 2 = Z.of_nat (length mixed_edges).
Proof.
  refine (parse_is_consistent plain_repr (init "graph.json") mixed_world
            (GraphData mixed_nodes mixed_edges
               (Metadata (PStr "terraform_graph") (PBool true) (PBool false) 1 2))
            (set_edges mixed_edges (set_nodes mixed_nodes (loaded mixed_document)),
             emit (Print "✓ Parsed 2 edges")
               (emit (Print "✓ Parsed 1 nodes")
                  (emit (Print "✓ Graph file loaded successfully from graph.json")
                     mixed_world))) _).
  vm_compute. reflexivity.
Defined.

Lemma for_each_app {S A} (l1 l2 : list A) (body : A → M S unit) (s : S) :
  for_each (l1 ++ l2) body s =
    match for_each l1 body s with
    | (inr _, s') => for_each l2 body s'
    | (inl e, s') => (inl e, s')
    end.
Proof.
  revert s. induction l1 as [|x l1 IH]; intros s; [done|].
  simpl. unfold bind. destruct (body x s) as [[e|[]] s']; [done|]. apply IH.
Qed.

Lemma parse_node_not_object
    {DB} (repr : pyval → string) (v : pyval) (s : TerraformGraphParser * world DB) :
  is_dict v = false →
  parse_node repr v s =
    (inl (AttributeError ("'" +:+ type_name v +:+ "' object has no attribute 'get'")), s).
Proof. by destruct v. Qed.

Lemma has_key_truthy (doc : dict) (k : string) (v : pyval) :
  doc !! k = Some v → truthy (PDict doc) = true.
Proof.
  intros Hk. simpl. destruct (size doc) eqn:Hsize; [|done].
  apply map_size_empty_iff in Hsize. by rewrite Hsize, lookup_empty in Hk.
Qed.

(** X4: an entry of [objects] that is not an object stops [parse_nodes]
    with the [AttributeError] of its missing [get] method; the records of
    the entries before it stay stored in the parser, and nothing is
    printed. *)
Theorem stray_entry_aborts_parse_nodes
    {DB} (repr : pyval → string) (p : TerraformGraphParser) (w : world DB)
    (doc : dict) (before after : list pyval) (v : pyval) :
  raw_data p = PDict doc →
  doc !! "objects" = Some (PList (before ++ v :: after)) →
  forallb is_dict before = true →
  is_dict v = false →
  parse_nodes repr (p, w) =
    (inl (AttributeError ("'" +:+ type_name v +:+ "' object has no attribute 'get'")),
     (set_nodes (node_record repr <$> filter has_id (omap as_dict before)) p, w)).
Proof.
  intros Hraw Hobj Hbefore Hv.
  unfold parse_nodes. run_monad. rewrite Hraw.
  rewrite (has_key_truthy doc _ _ Hobj). simpl. rewrite Hobj. run_monad.
  rewrite for_each_app, (node_loop repr before (set_nodes [] p) w Hbefore).
  simpl. unfold bind. rewrite parse_node_not_object by done.
  by destruct p.
Qed.

Lemma stray_entry_aborts_parse_nodes_witness :
  parse_nodes plain_repr (loaded (PDict stray_document), quiet) =
    (inl (AttributeError ("'" +:+ type_name (PInt 5) +:+ "' object has no attribute 'get'")),
     (set_nodes (node_record plain_repr
                   <$> filter has_id (omap as_dict [PDict named_entry]))
                (loaded (PDict stray_document)), quiet)).
Proof.
  apply (stray_entry_aborts_parse_nodes plain_repr (loaded (PDict stray_document)) quiet
           stray_document [PDict named_entry] [PDict {["_gvid" := PInt 8]}] (PInt 5)).
  - reflexivity.
  - vm_compute. reflexivity.
  - reflexivity.
  - reflexivity.
Defined.

(** X5: a collection that is present but cannot be iterated, such as
    ["objects": null], is not read as empty: [parse_nodes] raises the
    [TypeError] of the [for] loop, after it has emptied the stored list. *)
Theorem null_collection_is_not_empty
    {DB} (repr : pyval → string) (p : TerraformGraphParser) (w : world DB)
    (doc : dict) (v : pyval) :
  raw_data p = PDict doc →
  doc !! "objects" = Some v →
  not_iterable v = true →
  parse_nodes repr (p, w) =
    (inl (TypeError ("'" +:+ type_name v +:+ "' object is not iterable")),
     (set_nodes [] p, w)).
Proof.
  intros Hraw Hobj Hv.
  unfold parse_nodes. run_monad. rewrite Hraw.
  rewrite (has_key_truthy doc _ _ Hobj). simpl. rewrite Hobj. simpl.
  by destruct v.
Qed.

Lemma null_collection_is_not_empty_witness :
  parse_nodes plain_repr (set_nodes mixed_nodes (loaded (PDict null_objects_document)), quiet) =
    (inl (TypeError ("'" +:+ type_name PNone +:+ "' object is not iterable")),
     (set_nodes [] (set_nodes mixed_nodes (loaded (PDict null_objects_document))), quiet)).
Proof.
  apply (null_collection_is_not_empty plain_repr
           (set_nodes mixed_nodes (loaded (PDict null_objects_document))) quiet
           null_objects_document PNone).
  - reflexivity.
  - vm_compute. reflexivity.
  - reflexivity.
Defined.

(** The record at a position of the result is the record of the kept
    entry at that position. *)
Lemma node_at
    {DB} (repr : pyval → string) (p : TerraformGraphParser) (w : world DB)
    (ns : list dict) s (i : nat) (d n : dict) :
  parse_nodes repr (p, w) = (inr ns, s) →
  filter has_id (dict_entries "objects" (raw_data p)) !! i = Some d →
  ns !! i = Some n →
  n = node_record repr d.
Proof.
  intros Hrun Hd Hn. apply parse_nodes_returned in Hrun as (_ & _ & -> & _).
  rewrite list_lookup_fmap, Hd in Hn. by injection Hn.
Qed.

Lemma edge_at
    {DB} (repr : pyval → string) (p : TerraformGraphParser) (w : world DB)
    (es : list dict) s (i : nat) (d e : dict) :
  parse_edges repr (p, w) = (inr es, s) →
  dict_entries "edges" (raw_data p) !! i = Some d →
  es !! i = Some e →
  e = edge_record repr d.
Proof.
  intros Hrun Hd He. apply parse_edges_returned in Hrun as (_ & _ & -> & _).
  rewrite list_lookup_fmap, Hd in He. by injection He.
Qed.

Lemma node_record_id (repr : pyval → string) (d : dict) :
  node_record repr d !! "id"
    = Some (default (PStr (str repr (default PNone (d !! "_gvid")))) (d !! "id")).
Proof.
  rewrite node_record_lookup. cbv zeta.
  destruct (d !! "id") as [v|]; simpl; [done|].
  by rewrite lookup_insert_ne, lookup_insert_ne, lookup_insert_eq.
Qed.

(** X6: the [id] of a node record is the text of the entry's [_gvid],
    unless the entry has a field named [id] of its own: the copy of the
    remaining fields then puts that value, whatever its type, in its
    place. *)
Theorem node_id_is_identifier_or_own_id
    {DB} (repr : pyval → string) (p : TerraformGraphParser) (w : world DB)
    (ns : list dict) s (i : nat) (d n : dict) :
  parse_nodes repr (p, w) = (inr ns, s) →
  filter has_id (dict_entries "objects" (raw_data p)) !! i = Some d →
  ns !! i = Some n →
  n !! "id" = Some (default (PStr (str repr (default PNone (d !! "_gvid")))) (d !! "id")).
Proof.
  intros Hrun Hd Hn. rewrite (node_at repr p w ns s i d n Hrun Hd Hn).
  apply node_record_id.
Qed.

Lemma node_id_is_identifier_or_own_id_witness :
  node_record plain_repr custom_entry !! "id"
    = Some (default (PStr (str plain_repr (default PNone (custom_entry !! "_gvid"))))
                    (custom_entry !! "id")).
Proof.
  refine (node_id_is_identifier_or_own_id plain_repr (loaded attributes_document) quiet
            [node_record plain_repr custom_entry; node_record plain_repr oval_entry]
            _ 0%nat custom_entry (node_record plain_repr custom_entry) _ _ _).
  - vm_compute. reflexivity.
  - vm_compute. reflexivity.
  - vm_compute. reflexivity.
Defined.

(** X7: two entries with different integer [_gvid] and no [id] field of
    their own get different [id]s. *)
Theorem integer_identifiers_give_distinct_ids
    {DB} (repr : pyval → string) (p : TerraformGraphParser) (w : world DB)
    (ns : list dict) s (i j : nat) (d1 d2 n1 n2 : dict) (z1 z2 : Z) :
  parse_nodes repr (p, w) = (inr ns, s) →
  filter has_id (dict_entries "objects" (raw_data p)) !! i = Some d1 →
  filter has_id (dict_entries "objects" (raw_data p)) !! j = Some d2 →
  ns !! i = Some n1 →
  ns !! j = Some n2 →
  d1 !! "_gvid" = Some (PInt z1) →
  d2 !! "_gvid" = Some (PInt z2) →
  d1 !! "id" = None →
  d2 !! "id" = None →
  z1 ≠ z2 →
  n1 !! "id" ≠ n2 !! "id".
Proof.
  intros Hrun Hd1 Hd2 Hn1 Hn2 Hz1 Hz2 Hid1 Hid2 Hne.
  rewrite (node_at repr p w ns s i d1 n1 Hrun Hd1 Hn1).
  rewrite (node_at repr p w ns s j d2 n2 Hrun Hd2 Hn2).
  rewrite !node_record_id, Hz1, Hz2, Hid1, Hid2. simpl. intros [= Heq].
  by apply (inj pretty) in Heq.
Qed.

Lemma integer_identifiers_give_distinct_ids_witness :
  node_record plain_repr web_entry !! "id" ≠ node_record plain_repr sg_entry !! "id".
Proof.
  refine (integer_identifiers_give_distinct_ids plain_repr (loaded scenario_document) quiet
            scenario_nodes _ 0%nat 1%nat web_entry sg_entry _ _ 0 1 _ _ _ _ _ _ _ _ _ _).
  - vm_compute. reflexivity.
  - vm_compute. reflexivity.
  - vm_compute. reflexivity.
  - vm_compute. reflexivity.
  - vm_compute. reflexivity.
  - vm_compute. reflexivity.
  - vm_compute. reflexivity.
  - vm_compute. reflexivity.
  - vm_compute. reflexivity.
  - lia.
Defined.

Lemma fixed_lookup_is_field (a b c : string) (x y z : pyval) (k : string) :
  is_Some ((<[a := x]> (<[b := y]> (<[c := z]> (∅ : dict)))) !! k) → k ∈ [c; b; a].
Proof.
  rewrite !elem_of_cons. intros [v Hv].
  destruct (decide (k = a)) as [->|Ha]; [auto|].
  rewrite lookup_insert_ne in Hv by done.
  destruct (decide (k = b)) as [->|Hb]; [auto|].
  rewrite lookup_insert_ne in Hv by done.
  destruct (decide (k = c)) as [->|Hc]; [auto|].
  by rewrite lookup_insert_ne, lookup_empty in Hv.
Qed.

(** X8: a node record carries every field of its entry that is not in the
    exclusion list, with the value unchanged, and has no key besides [id],
    [name], [label] and those fields. *)
Theorem node_record_carries_the_other_fields
    {DB} (repr : pyval → string) (p : TerraformGraphParser) (w : world DB)
    (ns : list dict) s (i : nat) (d n : dict) :
  parse_nodes repr (p, w) = (inr ns, s) →
  filter has_id (dict_entries "objects" (raw_data p)) !! i = Some d →
  ns !! i = Some n →
  (∀ k v, k ∉ node_excluded → d !! k = Some v → n !! k = Some v)
  ∧ (∀ k, is_Some (n !! k) →
          (k ∈ node_fields) ∨ ((k ∉ node_excluded) ∧ is_Some (d !! k))).
Proof.
  intros Hrun Hd Hn. rewrite (node_at repr p w ns s i d n Hrun Hd Hn). split.
  - intros k v Hk Hv. rewrite node_record_lookup. cbv zeta. rewrite Hv.
    by rewrite bool_decide_eq_false_2.
  - intros k. rewrite node_record_lookup. cbv zeta.
    destruct (d !! k) as [v|] eqn:Hv.
    + case_bool_decide as Hk; [|by right].
      intros H. left. by apply fixed_lookup_is_field in H.
    + intros H. left. by apply fixed_lookup_is_field in H.
Qed.

Lemma node_record_carries_the_other_fields_witness :
  (∀ k v, k ∉ node_excluded → custom_entry !! k = Some v →
          node_record plain_repr custom_entry !! k = Some v)
  ∧ (∀ k, is_Some (node_record plain_repr custom_entry !! k) →
          (k ∈ node_fields) ∨ ((k ∉ node_excluded) ∧ is_Some (custom_entry !! k))).
Proof.
  refine (node_record_carries_the_other_fields plain_repr (loaded attributes_document) quiet
            [node_record plain_repr custom_entry; node_record plain_repr oval_entry]
            _ 0%nat custom_entry (node_record plain_repr custom_entry) _ _ _).
  - vm_compute. reflexivity.
  - vm_compute. reflexivity.
  - vm_compute. reflexivity.
Defined.

(** X9: an edge record carries every field of its entry that is not in
    the exclusion list, with the value unchanged, and has no key besides
    [source], [target], [label] and those fields. *)
Theorem edge_record_carries_the_other_fields
    {DB} (repr : pyval → string) (p : TerraformGraphParser) (w : world DB)
    (es : list dict) s (i : nat) (d e : dict) :
  parse_edges repr (p, w) = (inr es, s) →
  dict_entries "edges" (raw_data p) !! i = Some d →
  es !! i = Some e →
  (∀ k v, k ∉ edge_excluded → d !! k = Some v → e !! k = Some v)
  ∧ (∀ k, is_Some (e !! k) →
          (k ∈ edge_fields) ∨ ((k ∉ edge_excluded) ∧ is_Some (d !! k))).
Proof.
  intros Hrun Hd He. rewrite (edge_at repr p w es s i d e Hrun Hd He). split.
  - intros k v Hk Hv. rewrite edge_record_lookup. cbv zeta. rewrite Hv.
    by rewrite bool_decide_eq_false_2.
  - intros k. rewrite edge_record_lookup. cbv zeta.
    destruct (d !! k) as [v|] eqn:Hv.
    + case_bool_decide as Hk; [|by right].
      intros H. left. by apply fixed_lookup_is_field in H.
    + intros H. left. by apply fixed_lookup_is_field in H.
Qed.

Lemma edge_record_carries_the_other_fields_witness :
  (∀ k v, k ∉ edge_excluded → weighted_entry !! k = Some v →
          edge_record plain_repr weighted_entry !! k = Some v)
  ∧ (∀ k, is_Some (edge_record plain_repr weighted_entry !! k) →
          (k ∈ edge_fields) ∨ ((k ∉ edge_excluded) ∧ is_Some (weighted_entry !! k))).
Proof.
  refine (edge_record_carries_the_other_fields plain_repr (loaded attributes_document) quiet
            [edge_record plain_repr weighted_entry]
            _ 0%nat weighted_entry (edge_record plain_repr weighted_entry) _ _ _).
  - vm_compute. reflexivity.
  - vm_compute. reflexivity.
  - vm_compute. reflexivity.
Defined.



(** X11: when [load_graph] fails, so does [parse], with the same error,
    having printed nothing and leaving the parser as it was, data of an
    earlier load and parsed lists included. The error is
    [FileNotFoundError] naming the path when the file is missing or
    [open] raises that error; [ValueError] with the decoder's complaint
    when [json.load] raises [JSONDecodeError]; and any other exception of
    [open] or [json.load], such as [UnicodeDecodeError] or
    [PermissionError], as it is, not wrapped. *)
Theorem parse_fails_with_the_file
    {DB} (repr : pyval → string) (p : TerraformGraphParser) (w : world DB) :
  (files w !! file_path p = None →
   parse repr (p, w) =
     (inl (FileNotFoundError ("Graph file not found: " +:+ file_path p)), (p, w)))
  ∧ (∀ why, files w !! file_path p = Some (BadJson why) →
     parse repr (p, w) =
       (inl (ValueError ("Invalid JSON in graph file: " +:+ why)), (p, w)))
  ∧ (∀ e, files w !! file_path p = Some (Unreadable e) →
     not_found e = true →
     parse repr (p, w) =
       (inl (FileNotFoundError ("Graph file not found: " +:+ file_path p)), (p, w)))
  ∧ (∀ e, files w !! file_path p = Some (Unreadable e) →
     not_found e = false →
     parse repr (p, w) = (inl e, (p, w))).
Proof.
  split; [intros H|split; [intros why H|split; intros e H He]];
    unfold parse, load_graph; run_monad; rewrite H; try done;
    by destruct e.
Qed.

Lemma parse_fails_with_the_file_witness :
  parse plain_repr (Parser.init "graph.json", binary_world) =
    (inl (UnicodeDecodeError
            "'utf-8' codec can't decode byte 0xff in position 0: invalid start byte"),
     (Parser.init "graph.json", binary_world)).
Proof.
  destruct (parse_fails_with_the_file plain_repr (Parser.init "graph.json") binary_world)
    as (_ & _ & _ & Hother).
  apply Hother.
  - vm_compute. reflexivity.
  - reflexivity.
Defined.

End ParserMore.
(* ===================================================================== *)
(** ** Further properties of the connector *)
(* ===================================================================== *)

Module ConnectorMore.
Import Py Driver Parser Connector Doc Samples MoreViews MoreSamples ParserFacts.

Ltac run_connector :=
  unfold ingest_graph, clear_database, create_constraints, ingest_nodes, ingest_edges,
    get_stats, session, session_run, single_field, try_except, of_option, print,
    mbind, M_bind, mret, M_ret, bind, ret, raise, self, gets, update, modify;
  simpl.

(** X12: a connector that has not connected cannot reach the server:
    [clear_database], [create_constraints], [ingest_graph] and [get_stats]
    raise the [AttributeError] of the missing driver, send no statement,
    print nothing, and leave the connector and the world as they were. *)
Theorem unconnected_connector_sends_nothing
    {DB} `{!Server DB} (repr : pyval → string) (c : Neo4jConnector) (w : world DB)
    (g : graph_data) (clear_existing : bool) :
  driver c = None →
  clear_database (c, w) = (inl no_session, (c, w))
  ∧ create_constraints (c, w) = (inl no_session, (c, w))
  ∧ ingest_graph repr g clear_existing (c, w) = (inl no_session, (c, w))
  ∧ get_stats (c, w) = (inl no_session, (c, w)).
Proof.
  intros Hd. run_connector. rewrite Hd. simpl.
  by destruct clear_existing; simpl; rewrite ?Hd.
Qed.

Lemma unconnected_connector_sends_nothing_witness :
  clear_database (scenario_connector, scenario_world)
    = (inl no_session, (scenario_connector, scenario_world))
  ∧ create_constraints (scenario_connector, scenario_world)
    = (inl no_session, (scenario_connector, scenario_world))
  ∧ ingest_graph plain_repr empty_graph true (scenario_connector, scenario_world)
    = (inl no_session, (scenario_connector, scenario_world))
  ∧ get_stats (scenario_connector, scenario_world)
    = (inl no_session, (scenario_connector, scenario_world)).
Proof.
  apply (unconnected_connector_sends_nothing plain_repr scenario_connector scenario_world
           empty_graph true).
  reflexivity.
Defined.

Lemma constraint_step
    {DB} `{!Server DB} (c : Neo4jConnector) (w : world DB) (ep : endpoint) :
  driver c = Some ep →
  answers_or_fails ep CreateConstraint (db w) →
  ∃ line,
    create_constraints (c, w) =
      (inr (), (c, World (files w) (run ep CreateConstraint (db w)).2
                         (trace w ++ [Run CreateConstraint (run ep CreateConstraint (db w)).1;
                                      Print line]))).
Proof.
  intros Hd Hans. unfold answers_or_fails in Hans. run_connector. rewrite Hd. simpl.
  destruct (run ep CreateConstraint (db w)) as [[e|records] d] eqn:Hrun; simpl in *.
  - rewrite (Hans e eq_refl). simpl. eexists.
    unfold emit. simpl. by rewrite <- app_assoc.
  - eexists. unfold emit. simpl. by rewrite <- app_assoc.
Qed.

(** X13: [create_constraints] on a connected connector returns whether or
    not the server accepts the statement: a failure is printed as a note
    after the statement, and is not raised. *)
Theorem constraint_failure_is_swallowed
    {DB} `{!Server DB} (c : Neo4jConnector) (w : world DB) (ep : endpoint) :
  driver c = Some ep →
  answers_or_fails ep CreateConstraint (db w) →
  ∃ line,
    create_constraints (c, w) =
      (inr (), (c, World (files w) (run ep CreateConstraint (db w)).2
                         (trace w ++ [Run CreateConstraint (run ep CreateConstraint (db w)).1;
                                      Print line])))
    ∧ ∀ e, (run ep CreateConstraint (db w)).1 = inl e →
           line = "Note: Constraint may already exist: " +:+ exn_str e.
Proof.
  intros Hd Hans. unfold answers_or_fails in Hans. run_connector. rewrite Hd. simpl.
  destruct (run ep CreateConstraint (db w)) as [[e|records] d] eqn:Hrun; simpl in *.
  - rewrite (Hans e eq_refl). simpl. eexists. split.
    + unfold emit. simpl. by rewrite <- app_assoc.
    + by intros ? [= <-].
  - eexists. split; [|discriminate].
    unfold emit. simpl. by rewrite <- app_assoc.
Qed.

Lemma constraint_failure_is_swallowed_witness :
  ∃ line,
    create_constraints (connected, clashing_world) =
      (inr (), (connected,
                World (files clashing_world)
                      (run (Endpoint "bolt://localhost:7687" "neo4j" "secret")
                           CreateConstraint (db clashing_world)).2
                      (trace clashing_world ++
                       [Run CreateConstraint
                            (run (Endpoint "bolt://localhost:7687" "neo4j" "secret")
                                 CreateConstraint (db clashing_world)).1;
                        Print line])))
    ∧ ∀ e, (run (Endpoint "bolt://localhost:7687" "neo4j" "secret")
                CreateConstraint (db clashing_world)).1 = inl e →
           line = "Note: Constraint may already exist: " +:+ exn_str e.
Proof.
  apply (constraint_failure_is_swallowed connected clashing_world
           (Endpoint "bolt://localhost:7687" "neo4j" "secret")).
  - reflexivity.
  - intros e. vm_compute. by intros [= <-].
Defined.

(** X14: on a connected connector, [ingest_graph] without clearing, of a
    graph with neither nodes nor edges, sends the constraint statement and
    nothing else, and returns the counts 0 and 0 even when the server
    refuses the statement. *)
Theorem empty_ingest_reports_zero
    {DB} `{!Server DB} (repr : pyval → string) (c : Neo4jConnector) (w : world DB)
    (ep : endpoint) (g : graph_data) :
  driver c = Some ep →
  gd_nodes g = [] →
  gd_edges g = [] →
  answers_or_fails ep CreateConstraint (db w) →
  (ingest_graph repr g false (c, w)).1 = inr (IngestCounts (PInt 0) (PInt 0))
  ∧ db (ingest_graph repr g false (c, w)).2.2 = (run ep CreateConstraint (db w)).2
  ∧ ∃ t, trace (ingest_graph repr g false (c, w)).2.2 = trace w ++ t
         ∧ queries t = [CreateConstraint].
Proof.
  intros Hd Hn He Hans.
  destruct (constraint_step c w ep Hd Hans) as (line & Hrun).
  assert (∃ t, ingest_graph repr g false (c, w) =
                 (inr (IngestCounts (PInt 0) (PInt 0)),
                  (c, World (files w) (run ep CreateConstraint (db w)).2 (trace w ++ t)))
               ∧ queries t = [CreateConstraint]) as (t & Hall & Ht).
  { unfold ingest_graph, ingest_nodes, ingest_edges. rewrite Hn, He.
    set (step := create_constraints) in *.
    unfold print, mbind, M_bind, mret, M_ret, bind, ret, modify, emit. simpl.
    rewrite Hrun. simpl. eexists. split; [by rewrite <- !app_assoc|done]. }
  rewrite Hall. simpl. split; [done|]. split; [done|]. by exists t.
Qed.

Lemma empty_ingest_reports_zero_witness :
  (ingest_graph plain_repr empty_graph false (connected, clashing_world)).1
    = inr (IngestCounts (PInt 0) (PInt 0))
  ∧ db (ingest_graph plain_repr empty_graph false (connected, clashing_world)).2.2
    = (run (Endpoint "bolt://localhost:7687" "neo4j" "secret")
           CreateConstraint (db clashing_world)).2
  ∧ ∃ t, trace (ingest_graph plain_repr empty_graph false (connected, clashing_world)).2.2
           = trace clashing_world ++ t
         ∧ queries t = [CreateConstraint].
Proof.
  apply (empty_ingest_reports_zero plain_repr connected clashing_world
           (Endpoint "bolt://localhost:7687" "neo4j" "secret") empty_graph).
  - reflexivity.
  - reflexivity.
  - reflexivity.
  - intros e. vm_compute. by intros [= <-].
Defined.

(** X15: [connect] never touches the database or the files. When it
    returns, the driver was opened and verified and is stored. When it
    fails with an [Exception], what it raises is a [ConnectionError] whose
    message ends with the text of the cause; if the cause is the
    verification, the driver that was opened stays stored. *)
Theorem connect_raises_connection_error
    {DB} `{!Server DB} (c : Neo4jConnector) (w : world DB) :
  db (connect (c, w)).2.2 = db w
  ∧ files (connect (c, w)).2.2 = files w
  ∧ match (connect (c, w)).1 with
    | inr _ =>
        open_driver (Endpoint (uri c) (user c) (password c)) = None
        ∧ verify_connectivity (Endpoint (uri c) (user c) (password c)) (db w) = None
        ∧ driver (connect (c, w)).2.1 = Some (Endpoint (uri c) (user c) (password c))
    | inl e =>
        is_exception e = true →
        ∃ cause,
          e = ConnectionError ("Failed to connect to Neo4j: " +:+ exn_str cause)
          ∧ (open_driver (Endpoint (uri c) (user c) (password c)) = Some cause
             ∧ driver (connect (c, w)).2.1 = driver c
             ∨ open_driver (Endpoint (uri c) (user c) (password c)) = None
               ∧ verify_connectivity (Endpoint (uri c) (user c) (password c)) (db w)
                 = Some cause
               ∧ driver (connect (c, w)).2.1
                 = Some (Endpoint (uri c) (user c) (password c)))
    end.
Proof.
  unfold connect. run_connector.
  destruct (open_driver _) as [e1|] eqn:Ho; simpl.
  - destruct (is_exception e1) eqn:He1; simpl.
    + split; [done|]. split; [done|]. intros _. exists e1. split; [done|]. by left.
    + split; [done|]. split; [done|]. by rewrite He1.
  - destruct (verify_connectivity _ _) as [e2|] eqn:Hv; simpl.
    + destruct (is_exception e2) eqn:He2; simpl.
      * split; [done|]. split; [done|]. intros _. exists e2. split; [done|]. by right.
      * split; [done|]. split; [done|]. by rewrite He2.
    + done.
Qed.

End ConnectorMore.

(* ===================================================================== *)
(** ** Properties of the statements on the Neo4j server *)
(* ===================================================================== *)

Module Neo4jMore.
Import Py Driver Parser Connector Doc Samples MoreViews MoreSamples.
Import ConnectorMore.

(** [positions] lists, without repetition, the places of the elements
    that pass the test. *)
Lemma positions_shifted {A} (test : A → bool) (P : A → Prop) `{!∀ x, Decision (P x)}
      (h : nat → nat) (l : list A) :
  (∀ x, test x = true ↔ P x) →
  Inj (=) (=) h →
  let found := omap (λ p : nat * A, if test p.2 then Some p.1 else None)
                    (imap (λ i x, (h i, x)) l) in
  length found = length (filter P l)
  ∧ NoDup found
  ∧ ∀ y, y ∈ found → ∃ i, y = h i.
Proof.
  intros Htest. revert h. induction l as [|x l IH]; intros h Hinj; simpl.
  { split; [done|]. split; [constructor|]. intros y Hy. by apply elem_of_nil in Hy. }
  destruct (IH (h ∘ S)) as (Hlen & Hnodup & Hran).
  { intros i j Hij. apply Hinj in Hij. by injection Hij. }
  rewrite filter_cons. destruct (test x) eqn:Hx.
  - rewrite decide_True by by apply Htest.
    split; [simpl; f_equal; exact Hlen|]. split.
    + constructor; [|exact Hnodup].
      intros Hin. apply Hran in Hin as [i Hi]. simpl in Hi.
      apply Hinj in Hi. discriminate.
    + intros y Hy. apply elem_of_cons in Hy as [->|Hy]; [by exists 0%nat|].
      apply Hran in Hy as [i ->]. by exists (S i).
  - rewrite decide_False by (intros HP; apply Htest in HP; congruence).
    split; [exact Hlen|]. split; [exact Hnodup|].
    intros y Hy. apply Hran in Hy as [i ->]. by exists (S i).
Qed.

Lemma positions_length {A} (test : A → bool) (P : A → Prop) `{!∀ x, Decision (P x)}
      (l : list A) :
  (∀ x, test x = true ↔ P x) →
  length (Neo4j.positions test l) = length (filter P l).
Proof. intros Ht. by destruct (positions_shifted test P id l Ht _) as (? & _). Qed.

Lemma positions_NoDup {A} (test : A → bool) (l : list A) :
  NoDup (Neo4j.positions test l).
Proof.
  by destruct (positions_shifted test (λ x, test x = true) id l (λ x, reflexivity _) _)
    as (_ & ? & _).
Qed.

Lemma remove_dups_block (k n : nat) (rest : list nat) :
  n ∉ rest →
  remove_dups (replicate (S k) n ++ rest) = n :: remove_dups rest.
Proof.
  intros Hout. induction k as [|k IHk].
  - simpl. by destruct (decide_rel elem_of n rest).
  - change (replicate (S (S k)) n ++ rest) with (n :: (replicate (S k) n ++ rest)).
    cbn [remove_dups].
    destruct (decide_rel elem_of n (replicate (S k) n ++ rest)) as [_|Hnot];
      [exact IHk|].
    destruct Hnot. simpl. by left.
Qed.

Lemma remove_dups_blocks (k : nat) (ns : list nat) :
  NoDup ns → remove_dups (n ← ns; replicate (S k) n) = ns.
Proof.
  induction 1 as [|n ns Hn Hns IH]; [done|].
  change (remove_dups (replicate (S k) n ++ (m ← ns; replicate (S k) m)) = n :: ns).
  rewrite remove_dups_block, IH; [done|].
  intros Hin. apply list_elem_of_bind in Hin as (m & Hm & Hin).
  apply elem_of_replicate in Hm as [-> _]. done.
Qed.

(** The rows of the statistics query: every resource beside every
    dependency, or beside none when there is no dependency. *)
Lemma stats_rows (ns rs : list nat) :
  let rows : list (nat * option nat) :=
    n ← ns;
    match rs with
    | [] => [(n, None)]
    | _ => (λ r, (n, Some r)) <$> rs
    end in
  length (omap snd rows) = (length ns * length rs)%nat
  ∧ fst <$> rows = (n ← ns; replicate (S (pred (length rs))) n).
Proof.
  cbv zeta.
  set (f := λ n : nat, match rs with
                       | [] => [(n, None)]
                       | _ => (λ r, (n, Some r)) <$> rs
                       end).
  assert (Hsnd : ∀ n, length (omap snd (f n)) = length rs).
  { intros n. unfold f. destruct rs as [|r rs']; [done|].
    generalize (r :: rs'). intros l. f_equal.
    induction l as [|? l IHl]; [done|]. csimpl. by f_equal. }
  assert (Hfst : ∀ n, fst <$> f n = replicate (S (pred (length rs))) n).
  { intros n. unfold f. destruct rs as [|r rs']; [done|].
    change (S (pred (length (r :: rs')))) with (length (r :: rs')).
    generalize (r :: rs'). intros l.
    induction l as [|? l IHl]; [done|]. csimpl. by f_equal. }
  induction ns as [|n ns [IH1 IH2]]; [done|]. split.
  - rewrite bind_cons, omap_app, length_app, IH1, Hsnd. done.
  - rewrite !bind_cons, fmap_app, IH2, Hfst. done.
Qed.

Lemma count_stats_multiplies (g : Neo4j.graph) :
  Neo4j.count_stats g =
    <["relationships" :=
        PInt (Z.of_nat (length (resources g) * length (dependencies g)))]>
      {["nodes" := PInt (Z.of_nat (length (resources g)))]}.
Proof.
  unfold Neo4j.count_stats, resources, dependencies. cbv zeta.
  set (ns := Neo4j.positions _ (Neo4j.gnodes g)).
  set (rs := Neo4j.positions _ (Neo4j.grels g)).
  destruct (stats_rows ns rs) as [Hrel Hnodes]. cbv zeta in Hrel, Hnodes.
  rewrite Hrel, Hnodes, remove_dups_blocks by apply positions_NoDup.
  subst ns rs.
  rewrite (positions_length _ (λ n, "TerraformResource" ∈ Neo4j.labels n))
    by (intros; apply bool_decide_eq_true).
  rewrite (positions_length _ (λ r, Neo4j.rel_type r = "DEPENDS_ON")); [done|].
  intros r. apply String.eqb_eq.
Qed.

(** X16: on a reachable Neo4j server, [get_stats] returns as [nodes] the
    number of resources and as [relationships] the number of resources
    times the number of dependencies: the dependencies are counted once
    for every resource. The database is left as it was. *)
Theorem get_stats_multiplies
    (c : Neo4jConnector) (w : world Neo4j.graph) (ep : endpoint) :
  driver c = Some ep →
  Neo4j.reachable ep (db w) = None →
  (get_stats (c, w)).1 =
    inr (Stats (PInt (Z.of_nat (length (resources (db w)))))
               (PInt (Z.of_nat (length (resources (db w))
                                * length (dependencies (db w))))))
  ∧ db (get_stats (c, w)).2.2 = db w.
Proof.
  intros Hd Hreach. run_connector. rewrite Hd. simpl. rewrite Hreach. simpl.
  rewrite count_stats_multiplies.
  rewrite lookup_insert_ne, lookup_singleton_eq by done. simpl.
  by rewrite lookup_insert_eq.
Qed.

Lemma get_stats_multiplies_witness :
  (get_stats (connected, linked_world)).1 =
    inr (Stats (PInt (Z.of_nat (length (resources (db linked_world)))))
               (PInt (Z.of_nat (length (resources (db linked_world))
                                * length (dependencies (db linked_world))))))
  ∧ db (get_stats (connected, linked_world)).2.2 = db linked_world.
Proof.
  apply (get_stats_multiplies connected linked_world
           (Endpoint "bolt://localhost:7687" "neo4j" "secret")).
  - reflexivity.
  - vm_compute. reflexivity.
Defined.

(** *** Edges between resources that are not there *)

Lemma positions_none {A} (test : A → bool) (l : list A) :
  forallb (λ x, negb (test x)) l = true → Neo4j.positions test l = [].
Proof.
  intros Hall. apply nil_length_inv.
  rewrite (positions_length test (λ x, test x = true)) by done.
  induction l as [|x l IH]; [done|]. simpl in Hall.
  apply andb_prop in Hall as [Hx Hl]. rewrite filter_cons.
  destruct (test x); [done|]. rewrite decide_False by done. by apply IH.
Qed.

Lemma merge_edge_dangling (g : Neo4j.graph) (count : Z) (row : dict) :
  dangling g row = true →
  Neo4j.merge_edge (g, count) row = inr (g, count).
Proof.
  intros Hd. unfold Neo4j.merge_edge. cbv zeta. simpl.
  assert (Hpairs : (s ← Neo4j.positions
                         (Neo4j.is_resource (default PNone (row !! "source")))
                         (Neo4j.gnodes g);
                    (λ t, (s, t)) <$>
                      Neo4j.positions
                        (Neo4j.is_resource (default PNone (row !! "target")))
                        (Neo4j.gnodes g)) = []).
  { unfold dangling, unknown_end in Hd. apply orb_prop in Hd as [Hs|Ht].
    - by rewrite (positions_none _ _ Hs).
    - rewrite (positions_none _ _ Ht).
      induction (Neo4j.positions _ _) as [|s l IH]; [done|]. by rewrite bind_cons, IH. }
  rewrite Hpairs. simpl. by destruct g.
Qed.

Lemma unwind_dangling (g : Neo4j.graph) (rows : list dict) :
  forallb (λ row, Neo4j.packable (PDict row)) rows = true →
  forallb (dangling g) rows = true →
  Neo4j.unwind Neo4j.merge_edge rows g = inr (g, 0).
Proof.
  intros Hpack Hall. unfold Neo4j.unwind. rewrite Hpack. simpl.
  generalize 0 as count. induction rows as [|row rows IH]; intros count; [done|].
  simpl in Hpack, Hall.
  apply andb_prop in Hpack as [_ Hpack]. apply andb_prop in Hall as [Hrow Hall].
  simpl. rewrite (merge_edge_dangling g count row Hrow). by apply IH.
Qed.

(** X24: edge records whose [source] or [target] is the [id] of no
    resource in the database are dropped without an error: on a reachable
    Neo4j server [ingest_edges] of such records returns 0 and leaves the
    database as it was. *)
Theorem unknown_ends_are_dropped
    (repr : pyval → string) (c : Neo4jConnector) (w : world Neo4j.graph)
    (ep : endpoint) (rows : list dict) :
  driver c = Some ep →
  Neo4j.reachable ep (db w) = None →
  rows ≠ [] →
  forallb (λ row, Neo4j.packable (PDict row)) rows = true →
  forallb (dangling (db w)) rows = true →
  (ingest_edges repr rows (c, w)).1 = inr (PInt 0)
  ∧ db (ingest_edges repr rows (c, w)).2.2 = db w.
Proof.
  intros Hd Hreach Hne Hpack Hall.
  destruct rows as [|row rows']; [done|].
  set (rows := row :: rows') in *.
  unfold ingest_edges. fold rows. run_connector. rewrite Hd. simpl.
  rewrite Hreach. rewrite (unwind_dangling (db w) rows Hpack Hall). simpl.
  by rewrite lookup_singleton_eq.
Qed.

Lemma unknown_ends_are_dropped_witness :
  (ingest_edges plain_repr [dangling_edge] (connected, linked_world)).1 = inr (PInt 0)
  ∧ db (ingest_edges plain_repr [dangling_edge] (connected, linked_world)).2.2
    = db linked_world.
Proof.
  apply (unknown_ends_are_dropped plain_repr connected linked_world
           (Endpoint "bolt://localhost:7687" "neo4j" "secret") [dangling_edge]).
  - reflexivity.
  - vm_compute. reflexivity.
  - done.
  - vm_compute. reflexivity.
  - vm_compute. reflexivity.
Defined.

End Neo4jMore.

(* ===================================================================== *)
(** ** Further properties of the command line *)
(* ===================================================================== *)

Module MainMore.
Import Py Driver Parser Connector Doc Samples MoreViews MoreSamples.

Ltac run_main_steps :=
  unfold Main.sys_exit, Main.exec, print, modify, gets, raise, ret,
    mbind, M_bind, mret, M_ret, bind, try_except, emit, set_file;
  simpl.

(** X17: an empty [NEO4J_PASSWORD] in the environment counts as none, even
    when the [.env] file gives a password: the environment is read first.
    The program prints the two lines of the error and exits with status 1
    before anything else happens. *)
Theorem empty_password_counts_as_missing
    {DB} `{!Server DB} (repr : pyval → string) (a : Main.args) (c : Main.config)
    (w : world DB) :
  Main.environ c !! "NEO4J_PASSWORD" = Some "" →
  Main.run_main repr a c w =
    (1, World (files w) (db w)
              (trace w ++
               [Print "❌ Error: NEO4J_PASSWORD not set in environment variables";
                Print "Please create a .env file based on .env.example"])).
Proof.
  intros Henv.
  assert (H : (Main.environ c ∪ Main.dotenv c) !! "NEO4J_PASSWORD" = Some "")
    by by apply lookup_union_Some_l.
  unfold Main.run_main, Main.main. cbv zeta. rewrite H.
  run_main_steps. by rewrite <- app_assoc.
Qed.

Lemma empty_password_counts_as_missing_witness :
  Main.run_main plain_repr (Main.Args "graph.json" false false) empty_password
                scenario_world =
    (1, World (files scenario_world) (db scenario_world)
              (trace scenario_world ++
               [Print "❌ Error: NEO4J_PASSWORD not set in environment variables";
                Print "Please create a .env file based on .env.example"])).
Proof.
  apply (empty_password_counts_as_missing
           plain_repr (Main.Args "graph.json" false false) empty_password
           scenario_world).
  vm_compute. reflexivity.
Defined.

Lemma generate_returns
    {DB} `{!Server DB} (c : Main.config) (output_file : string) (w : world DB) :
  pipeline_exception (Main.terraform_graph c) = true →
  (Main.generate_terraform_graph c output_file (tt, w)).1
    = match escaping_check c with
      | Some e => inl e
      | None => inr (bool_decide (is_Some (generated_file c)))
      end
  ∧ db (Main.generate_terraform_graph c output_file (tt, w)).2.2 = db w
  ∧ files (Main.generate_terraform_graph c output_file (tt, w)).2.2
    = match written_file c with
      | Some out => <[output_file := out]> (files w)
      | None => files w
      end.
Proof.
  intros Hexn.
  unfold Main.generate_terraform_graph, generated_file, written_file,
    escaping_check, checks_pass.
  destruct (Main.terraform_version c); [|by run_main_steps..].
  destruct (Main.dot_version c); [|by run_main_steps..].
  destruct (Main.terraform_graph c) as [e|e|e out|rc err out]; simpl in Hexn.
  - run_main_steps. by rewrite Hexn.
  - run_main_steps. by rewrite Hexn.
  - run_main_steps. by rewrite Hexn.
  - destruct rc; run_main_steps; done.
Qed.

Lemma escaping_check_is_os_error (c : Main.config) (e : exn) :
  escaping_check c = Some e → ∃ msg, e = OSError msg.
Proof.
  unfold escaping_check.
  destruct (Main.terraform_version c), (Main.dot_version c); intros [= <-]; by eexists.
Qed.



(** What [main] does once it has a password. *)
Lemma main_with_password
    {DB} `{!Server DB} (repr : pyval → string) (a : Main.args) (c : Main.config)
    (pw : string) :
  configured_password c = Some pw →
  pw ≠ "" →
  ∃ rest : string → M (unit * world DB) unit,
    Main.main repr a c =
      ((if negb (Main.skip_generate a) then
          generated ← Main.generate_terraform_graph c (Main.graph_file a);
          if negb generated then Main.sys_exit 1 else ret tt
        else ret tt);;
       rest pw)
    ∧ ∀ s, files s.2 !! Main.graph_file a = None →
           rest pw s =
             (inl (SystemExit 1),
              (s.1, emit (Print ("❌ Error: Graph file not found: "
                                 +:+ Main.graph_file a)) s.2)).
Proof.
  intros Hpw Hne. unfold configured_password in Hpw.
  eexists (λ pw, _). split.
  - unfold Main.main. cbv zeta. rewrite Hpw. destruct pw; [done|]. reflexivity.
  - intros [u w] Hf. simpl in Hf. run_main_steps. rewrite Hf. simpl. done.
Qed.

(** X19: when the generation fails, [main] exits with status 1 right
    after it: the graph file, whether left by an earlier run or written by
    this one, is not parsed, and no connection is made. *)
Theorem failed_generation_stops_main
    {DB} `{!Server DB} (repr : pyval → string) (a : Main.args) (c : Main.config)
    (w : world DB) (pw : string) :
  configured_password c = Some pw →
  pw ≠ "" →
  Main.skip_generate a = false →
  pipeline_exception (Main.terraform_graph c) = true →
  generated_file c = None →
  Main.run_main repr a c w =
    (1, (Main.generate_terraform_graph c (Main.graph_file a) (tt, w)).2.2).
Proof.
  intros Hpw Hne Hskip Hexn Hgen.
  destruct (main_with_password repr a c pw Hpw Hne) as (rest & Hmain & _).
  destruct (generate_returns c (Main.graph_file a) w Hexn) as [Hr _].
  rewrite Hgen in Hr. unfold Main.run_main. rewrite Hmain, Hskip. simpl.
  unfold mbind, M_bind, bind at 1 2.
  destruct (Main.generate_terraform_graph c (Main.graph_file a) (tt, w))
    as [r [[] w']]. simpl in Hr. subst r.
  destruct (escaping_check c) as [e|] eqn:He; [|done].
  by apply escaping_check_is_os_error in He as [msg ->].
Qed.

Lemma failed_generation_stops_main_witness :
  Main.run_main plain_repr (Main.Args "graph.json" false false) no_terraform
                scenario_world =
    (1, (Main.generate_terraform_graph no_terraform "graph.json"
           (tt, scenario_world)).2.2).
Proof.
  apply (failed_generation_stops_main
           plain_repr (Main.Args "graph.json" false false) no_terraform
           scenario_world "secret").
  - vm_compute. reflexivity.
  - done.
  - reflexivity.
  - reflexivity.
  - reflexivity.
Defined.

(** X20: with [--skip-generate] and no file at the path, [main] prints
    that the graph file was not found and exits with status 1; nothing is
    parsed and no connection is made. *)
Theorem missing_graph_file_stops_main
    {DB} `{!Server DB} (repr : pyval → string) (a : Main.args) (c : Main.config)
    (w : world DB) (pw : string) :
  configured_password c = Some pw →
  pw ≠ "" →
  Main.skip_generate a = true →
  files w !! Main.graph_file a = None →
  Main.run_main repr a c w =
    (1, emit (Print ("❌ Error: Graph file not found: " +:+ Main.graph_file a)) w).
Proof.
  intros Hpw Hne Hskip Hfile.
  destruct (main_with_password repr a c pw Hpw Hne) as (rest & Hmain & Hrest).
  unfold Main.run_main. rewrite Hmain, Hskip. simpl.
  unfold mbind, M_bind, bind, ret. rewrite (Hrest (tt, w) Hfile). done.
Qed.

Lemma missing_graph_file_stops_main_witness :
  Main.run_main plain_repr (Main.Args "graph.json" true false) with_password
                bare_world =
    (1, emit (Print ("❌ Error: Graph file not found: " +:+ "graph.json")) bare_world).
Proof.
  apply (missing_graph_file_stops_main
           plain_repr (Main.Args "graph.json" true false) with_password
           bare_world "secret").
  - vm_compute. reflexivity.
  - done.
  - reflexivity.
  - reflexivity.
Defined.

(** X21: when [parse] fails on the graph file, [main] prints the error,
    then the traceback, and exits with status 1: it does not connect. *)
Theorem parse_failure_stops_main
    {DB} `{!Server DB} (repr : pyval → string) (a : Main.args) (c : Main.config)
    (w : world DB) (pw : string) (e : exn) (s : TerraformGraphParser * world DB) :
  configured_password c = Some pw →
  pw ≠ "" →
  Main.skip_generate a = true →
  is_Some (files w !! Main.graph_file a) →
  parse repr (Parser.init (Main.graph_file a),
              emit (Print (nl +:+ "📊 Parsing graph from " +:+ Main.graph_file a +:+ "..."))
                   w) = (inl e, s) →
  is_exception e = true →
  Main.run_main repr a c w =
    (1, emit (Traceback e) (emit (Print (nl +:+ "❌ Error: " +:+ exn_str e)) s.2)).
Proof.
  intros Hpw Hne Hskip Hfile Hparse Hexn. unfold configured_password in Hpw.
  unfold Main.run_main, Main.main. cbv zeta. rewrite Hpw, Hskip.
  destruct pw as [|ch pw]; [done|].
  unfold Main.on. run_main_steps.
  rewrite bool_decide_eq_true_2 by done. simpl.
  unfold emit in Hparse. simpl in Hparse. rewrite Hparse.
  destruct s as [p' w']. simpl. rewrite Hexn. done.
Qed.

Lemma parse_failure_stops_main_witness :
  Main.run_main plain_repr (Main.Args "graph.json" true false) with_password
                broken_world =
    (1, emit (Traceback (ValueError "Invalid JSON in graph file: Expecting value: line 1 column 1 (char 0)"))
          (emit (Print (nl +:+ "❌ Error: " +:+
                        exn_str (ValueError "Invalid JSON in graph file: Expecting value: line 1 column 1 (char 0)")))
                (Parser.init "graph.json",
                 emit (Print (nl +:+ "📊 Parsing graph from " +:+ "graph.json" +:+ "..."))
                      broken_world).2)).
Proof.
  apply (parse_failure_stops_main
           plain_repr (Main.Args "graph.json" true false) with_password
           broken_world "secret"
           (ValueError "Invalid JSON in graph file: Expecting value: line 1 column 1 (char 0)")
           (Parser.init "graph.json",
            emit (Print (nl +:+ "📊 Parsing graph from " +:+ "graph.json" +:+ "..."))
                 broken_world)).
  - vm_compute. reflexivity.
  - done.
  - reflexivity.
  - vm_compute. eexists. reflexivity.
  - vm_compute. reflexivity.
  - reflexivity.
Defined.

(** *** The connection *)

Lemma keeps_ret {DB A} (a : A) : keeps_connector (DB := DB) (ret a).
Proof. by intros s. Qed.

Lemma keeps_raise {DB A} (e : exn) : keeps_connector (DB := DB) (A := A) (raise e).
Proof. by intros s. Qed.

Lemma keeps_print {DB} (line : string) :
  keeps_connector (DB := DB) (print line).
Proof. by intros s. Qed.

Lemma keeps_bind {DB A B} (m : M (Neo4jConnector * world DB) A)
    (k : A → M (Neo4jConnector * world DB) B) :
  keeps_connector m → (∀ a, keeps_connector (k a)) → keeps_connector (bind m k).
Proof.
  intros Hm Hk s. unfold bind. specialize (Hm s).
  destruct (m s) as [[e|a] s']; [done|]. simpl in Hm. by rewrite Hk.
Qed.

Lemma keeps_try {DB A} (m : M (Neo4jConnector * world DB) A)
    (h : exn → M (Neo4jConnector * world DB) A) :
  keeps_connector m → (∀ e, keeps_connector (h e)) → keeps_connector (try_except m h).
Proof.
  intros Hm Hh s. unfold try_except. specialize (Hm s).
  destruct (m s) as [[e|a] s']; [|done]. simpl in Hm.
  destruct (is_exception e); [|done]. by rewrite Hh.
Qed.

Lemma keeps_session {DB} : keeps_connector (DB := DB) session.
Proof.
  intros s. unfold session, self, gets, mbind, M_bind, bind.
  by destruct (driver s.1).
Qed.

Lemma keeps_session_run {DB} `{!Server DB} (ep : endpoint) (q : query) :
  keeps_connector (session_run ep q).
Proof. intros s. unfold session_run. by destruct (run ep q (db s.2)). Qed.

Lemma keeps_single_field {DB} (records : list dict) (key : string) :
  keeps_connector (DB := DB) (single_field records key).
Proof.
  intros s. unfold single_field. destruct records as [|record ?]; [done|].
  by destruct (record !! key).
Qed.

Ltac keeps :=
  repeat first
    [ apply keeps_ret | apply keeps_raise | apply keeps_print
    | apply keeps_session | apply keeps_session_run | apply keeps_single_field
    | apply keeps_bind; [|intros ?]
    | apply keeps_try; [|intros ?]
    | match goal with
      | |- keeps_connector (if ?b then _ else _) => destruct b
      | |- keeps_connector (match ?l with [] => _ | _ :: _ => _ end) => destruct l
      end ].

Lemma keeps_ingest_graph {DB} `{!Server DB} (repr : pyval → string)
    (g : graph_data) (clear_existing : bool) :
  keeps_connector (ingest_graph repr g clear_existing).
Proof.
  unfold ingest_graph, clear_database, create_constraints, ingest_nodes,
    ingest_edges, mbind, M_bind.
  keeps.
Qed.

Lemma keeps_get_stats {DB} `{!Server DB} : keeps_connector get_stats.
Proof. unfold get_stats, mbind, M_bind. keeps. Qed.

Lemma keeps_ingestion {DB} `{!Server DB} (repr : pyval → string)
    (g : graph_data) (a : Main.args) :
  keeps_connector (ingestion repr g a).
Proof.
  unfold ingestion, mbind, M_bind. cbv zeta.
  apply keeps_bind; [apply keeps_ingest_graph|intros ?].
  apply keeps_bind; [apply keeps_get_stats|intros ?]. keeps.
Qed.

Lemma connect_stores_driver {DB} `{!Server DB} (c : Neo4jConnector) (w : world DB)
    (s : Neo4jConnector * world DB) :
  connect (c, w) = (inr tt, s) →
  driver s.1 = Some (Endpoint (uri c) (user c) (password c)).
Proof.
  unfold connect, try_except, of_option, update, print, modify, gets, raise,
    mbind, M_bind, bind, ret. simpl.
  destruct (open_driver _) as [e|]; simpl.
  { destruct (is_exception e); intros [=]. }
  destruct (verify_connectivity _ _) as [e|]; simpl.
  { destruct (is_exception e); intros [=]. }
  intros [= <-]. done.
Qed.

(** What [main] does once the graph file is there. *)
Lemma main_from_file
    {DB} `{!Server DB} (repr : pyval → string) (a : Main.args) (c : Main.config)
    (w : world DB) (pw : string) (g : graph_data)
    (s0 : TerraformGraphParser * world DB) :
  configured_password c = Some pw →
  pw ≠ "" →
  Main.skip_generate a = true →
  is_Some (files w !! Main.graph_file a) →
  parse repr (Parser.init (Main.graph_file a),
              emit (Print (nl +:+ "📊 Parsing graph from " +:+ Main.graph_file a +:+ "..."))
                   w) = (inr g, s0) →
  Main.main repr a c (tt, w) =
    try_except
      (Main.with_connector
         (Connector.init (configured_uri c) (configured_user c) pw)
         (ingestion repr g a);;
       print (nl +:+ "✅ Success! Terraform graph has been ingested into Neo4j");;
       print (nl +:+ "You can now query your graph at " +:+ configured_uri c);;
       print "Example query: MATCH (n)-[r]->(m) RETURN n, r, m LIMIT 25")
      (λ e,
         print (nl +:+ "❌ Error: " +:+ exn_str e);;
         modify (λ s, (s.1, emit (Traceback e) s.2));;
         Main.sys_exit 1)
      (tt, emit (Print (nl +:+ "🔌 Connecting to Neo4j at " +:+ configured_uri c +:+ "..."))
                s0.2).
Proof.
  intros Hpw Hne Hskip Hfile Hparse. unfold configured_password in Hpw.
  unfold Main.main. cbv zeta. rewrite Hpw, Hskip.
  destruct pw as [|ch pw]; [done|].
  fold (configured_uri c). fold (configured_user c).
  unfold Main.on. run_main_steps.
  rewrite bool_decide_eq_true_2 by done. simpl.
  unfold emit in Hparse. simpl in Hparse. rewrite Hparse.
  destruct s0 as [p0 w0]. reflexivity.
Qed.

(** X22: when the driver is opened but the server cannot be verified,
    [main] prints the connection error and the traceback and exits with
    status 1; the driver that was opened is not closed: [__exit__] is not
    run when [__enter__] raises. *)
Theorem failed_verification_leaves_driver_open
    {DB} `{!Server DB} (repr : pyval → string) (a : Main.args) (c : Main.config)
    (w : world DB) (pw : string) (g : graph_data)
    (s0 : TerraformGraphParser * world DB) (cause : exn) :
  configured_password c = Some pw →
  pw ≠ "" →
  Main.skip_generate a = true →
  is_Some (files w !! Main.graph_file a) →
  parse repr (Parser.init (Main.graph_file a),
              emit (Print (nl +:+ "📊 Parsing graph from " +:+ Main.graph_file a +:+ "..."))
                   w) = (inr g, s0) →
  open_driver (Endpoint (configured_uri c) (configured_user c) pw) = None →
  verify_connectivity (Endpoint (configured_uri c) (configured_user c) pw) (db s0.2)
    = Some cause →
  is_exception cause = true →
  Main.run_main repr a c w =
    (1, World (files s0.2) (db s0.2)
              (trace s0.2 ++
               [Print (nl +:+ "🔌 Connecting to Neo4j at " +:+ configured_uri c +:+ "...");
                Connect (Endpoint (configured_uri c) (configured_user c) pw);
                Print (nl +:+ "❌ Error: Failed to connect to Neo4j: " +:+ exn_str cause);
                Traceback (ConnectionError
                             ("Failed to connect to Neo4j: " +:+ exn_str cause))])).
Proof.
  intros Hpw Hne Hskip Hfile Hparse Hopen Hverify Hexn.
  unfold Main.run_main.
  rewrite (main_from_file repr a c w pw g s0 Hpw Hne Hskip Hfile Hparse).
  unfold Main.with_connector, connect, Connector.init, of_option, update.
  run_main_steps. rewrite Hopen. simpl. rewrite Hverify. simpl. rewrite Hexn. simpl.
  by rewrite <- !app_assoc.
Qed.

Lemma failed_verification_leaves_driver_open_witness :
  Main.run_main plain_repr (Main.Args "graph.json" true false) with_password
                locked_world =
    (1, World (files (parse plain_repr
                        (Parser.init "graph.json",
                         emit (Print (nl +:+ "📊 Parsing graph from " +:+ "graph.json"
                                      +:+ "..."))
                              locked_world)).2.2)
              (db (parse plain_repr
                     (Parser.init "graph.json",
                      emit (Print (nl +:+ "📊 Parsing graph from " +:+ "graph.json"
                                   +:+ "..."))
                           locked_world)).2.2)
              (trace (parse plain_repr
                        (Parser.init "graph.json",
                         emit (Print (nl +:+ "📊 Parsing graph from " +:+ "graph.json"
                                      +:+ "..."))
                              locked_world)).2.2 ++
               [Print (nl +:+ "🔌 Connecting to Neo4j at "
                       +:+ configured_uri with_password +:+ "...");
                Connect (Endpoint (configured_uri with_password)
                                  (configured_user with_password) "secret");
                Print (nl +:+ "❌ Error: Failed to connect to Neo4j: " +:+
                       exn_str (DriverError
                                  "The client is unauthorized due to authentication failure."));
                Traceback (ConnectionError
                             ("Failed to connect to Neo4j: " +:+
                              exn_str (DriverError
                                         "The client is unauthorized due to authentication failure.")))])).
Proof.
  apply (failed_verification_leaves_driver_open
           plain_repr (Main.Args "graph.json" true false) with_password locked_world
           "secret" scenario_graph
           (parse plain_repr
              (Parser.init "graph.json",
               emit (Print (nl +:+ "📊 Parsing graph from " +:+ "graph.json" +:+ "..."))
                    locked_world)).2
           (DriverError "The client is unauthorized due to authentication failure.")).
  - vm_compute. reflexivity.
  - done.
  - reflexivity.
  - vm_compute. eexists. reflexivity.
  - vm_compute. reflexivity.
  - vm_compute. reflexivity.
  - vm_compute. reflexivity.
  - reflexivity.
Defined.

(** X23: once [main] has connected, it closes the connection whatever
    happens to the ingestion: the close follows the last event of the
    block, before the closing lines of the run. The status is 0 when the
    block returned and 1 when it raised an [Exception], which is printed
    with its traceback after the close. *)
Theorem main_closes_the_connection
    {DB} `{!Server DB} (repr : pyval → string) (a : Main.args) (c : Main.config)
    (w : world DB) (pw : string) (g : graph_data)
    (s0 : TerraformGraphParser * world DB) (s1 s2 : Neo4jConnector * world DB)
    (r : exn + unit) :
  configured_password c = Some pw →
  pw ≠ "" →
  Main.skip_generate a = true →
  is_Some (files w !! Main.graph_file a) →
  parse repr (Parser.init (Main.graph_file a),
              emit (Print (nl +:+ "📊 Parsing graph from " +:+ Main.graph_file a +:+ "..."))
                   w) = (inr g, s0) →
  connect (Connector.init (configured_uri c) (configured_user c) pw,
           emit (Print (nl +:+ "🔌 Connecting to Neo4j at " +:+ configured_uri c +:+ "..."))
                s0.2) = (inr (), s1) →
  ingestion repr g a s1 = (r, s2) →
  (∀ e, r = inl e → is_exception e = true) →
  Main.run_main repr a c w =
    (match r with inr _ => 0 | inl _ => 1 end,
     World (files s2.2) (db s2.2)
           (trace s2.2 ++
            [Close; Print "✓ Neo4j connection closed"] ++
            match r with
            | inr _ =>
                [Print (nl +:+ "✅ Success! Terraform graph has been ingested into Neo4j");
                 Print (nl +:+ "You can now query your graph at " +:+ configured_uri c);
                 Print "Example query: MATCH (n)-[r]->(m) RETURN n, r, m LIMIT 25"]
            | inl e =>
                [Print (nl +:+ "❌ Error: " +:+ exn_str e); Traceback e]
            end)).
Proof.
  intros Hpw Hne Hskip Hfile Hparse Hconnect Hbody Hexn.
  unfold Main.run_main.
  rewrite (main_from_file repr a c w pw g s0 Hpw Hne Hskip Hfile Hparse).
  assert (Hdriver : is_Some (driver s2.1)).
  { pose proof (keeps_ingestion repr g a s1) as Hkeep. rewrite Hbody in Hkeep.
    simpl in Hkeep. rewrite Hkeep, (connect_stores_driver _ _ _ Hconnect). by eexists. }
  destruct Hdriver as [ep Hep].
  unfold Main.with_connector, try_except, mbind, M_bind, bind at 1 2 3. simpl.
  rewrite Hconnect, Hbody.
  unfold close, self, gets, mbind, M_bind, bind at 1. simpl. rewrite Hep.
  destruct s2 as [c2 w2]. run_main_steps.
  destruct r as [e|[]]; simpl.
  - rewrite (Hexn e eq_refl). simpl. by rewrite <- !app_assoc.
  - by rewrite <- !app_assoc.
Qed.

Lemma main_closes_the_connection_witness :
  Main.run_main plain_repr scenario_args with_password scenario_world =
    (0,
     World (files scenario_ingested.2) (db scenario_ingested.2)
           (trace scenario_ingested.2 ++
            [Close; Print "✓ Neo4j connection closed"] ++
            [Print (nl +:+ "✅ Success! Terraform graph has been ingested into Neo4j");
             Print (nl +:+ "You can now query your graph at "
                    +:+ configured_uri with_password);
             Print "Example query: MATCH (n)-[r]->(m) RETURN n, r, m LIMIT 25"])).
Proof.
  apply (main_closes_the_connection
           plain_repr scenario_args with_password scenario_world "secret"
           scenario_graph scenario_parsed scenario_entered scenario_ingested (inr ())).
  - vm_compute. reflexivity.
  - done.
  - reflexivity.
  - vm_compute. eexists. reflexivity.
  - vm_compute. reflexivity.
  - vm_compute. reflexivity.
  - vm_compute. reflexivity.
  - intros e [=].
Defined.

End MainMore.
